(** * nova.auth.manager: users, projects, roles and the per-project VPN ports

    A shallow embedding of [nova/auth/manager.py]: the role checks of
    [AuthManager] ([is_superuser], [is_admin], [has_role], [add_role],
    [remove_role]), request authentication ([authenticate]), the redis-backed
    pool of VPN ports ([Vpn]) and [get_credentials].

    Python values are embedded as follows.
    - An exception is a constructor of [exn]; a call that may raise returns
      [result A].
    - A method that "accepts objects or ids" takes a tagged argument
      ([user_arg], [project_arg]) so that [isinstance] and truthiness tests
      can be written out.
    - A method that returns [True] on some paths and falls off its end on
      the others returns a [pyval] ([VBool] or [VNone]). *)

From stdpp Require Import base option list gmap strings numbers.
From Stdlib Require Import ZArith Ascii.

Open Scope string_scope.

(** ** Exceptions and results *)

(** The exception classes raised on the paths modelled here.  [Error] is
    [nova.exception.Error] raised as such; [AttributeError] is what Python
    raises for an attribute access on [None] or on a [str].  The
    specification names them by role: [NotAuthorized] is its
    AuthenticationFailed, [NoMorePorts] its PoolExhausted, and [Error] both
    its InvalidArgument (in [has_role]) and its ConfigurationError (in
    [get_credentials]). *)
Inductive exn : Type :=
  | Error
  | NotFound
  | NotAuthorized
  | NoMorePorts
  | AttributeError.

Inductive result (A : Type) : Type :=
  | Return (a : A)
  | Raise (e : exn).
Arguments Return {A} a.
Arguments Raise {A} e.

(** Sequencing: an exception raised by [m] ends the computation. *)
Definition bind {A B : Type} (m : result A) (k : A → result B) : result B :=
  match m with
  | Return a => k a
  | Raise e => Raise e
  end.

Notation "'do' x <- m ; k" := (bind m (λ x, k))
  (at level 10, x name, m at level 100, k at level 200,
   format "'[v' 'do'  x  <-  m ; '/' k ']'").

(** What a Python function hands back when it either returns a boolean or
    reaches its end without a [return]. *)
Inductive pyval : Type :=
  | VBool (b : bool)
  | VNone.

Definition truthy (v : pyval) : bool :=
  match v with
  | VBool b => b
  | VNone => false
  end.

(** ** Data objects *)

Module User.
Record t : Type := mk {
  id : string;
  name : string;
  access : string;
  secret : string;
  admin : bool }.
End User.

Module Project.
Record t : Type := mk {
  id : string;
  name : string;
  project_manager_id : string;
  description : string;
  member_ids : list string }.
End Project.

(** A [user] parameter: a [User] object or a bare uid. *)
Inductive user_arg : Type :=
  | UObj (u : User.t)
  | UId (uid : string).

(** A [project] parameter: omitted ([None]), a [Project] object or a bare
    project id. *)
Inductive project_arg : Type :=
  | PNone
  | PObj (p : Project.t)
  | PId (pid : string).

(** [User.safe_id]: the id of a [User], anything else unchanged. *)
Definition User_safe_id (user : user_arg) : string :=
  match user with
  | UObj u => User.id u
  | UId uid => uid
  end.

(** [Project.safe_id]; [None] stays [None]. *)
Definition Project_safe_id (project : project_arg) : option string :=
  match project with
  | PNone => None
  | PObj p => Some (Project.id p)
  | PId pid => Some pid
  end.

(** Python truthiness of a [project] argument, as tested by [not project]:
    [None] and the empty string are false, a [Project] object (which defines
    neither [__len__] nor [__nonzero__]) and a non-empty id are true. *)
Definition project_given (project : project_arg) : bool :=
  match project with
  | PNone => false
  | PObj _ => true
  | PId pid => negb (bool_decide (pid = ""))
  end.

(** ** Configuration *)

Record Flags : Type := {
  superuser_roles : list string;
  global_roles : list string;
  use_vpn : bool;
  credential_key_file : string;
  credential_cert_file : string;
  credential_rc_file : string;
  ca_file : string;
  vpn_start_port : Z;
  vpn_end_port : Z;
  vpn_ip : string }.

(** The defaults of the [flags.DEFINE_*] lines; [ca_file] is defined by
    another module and given its usual value. *)
Definition default_flags : Flags := {|
  superuser_roles := ["cloudadmin"];
  global_roles := ["cloudadmin"; "itsec"];
  use_vpn := true;
  credential_key_file := "pk.pem";
  credential_cert_file := "cert.pem";
  credential_rc_file := "novarc";
  ca_file := "cacert.pem";
  vpn_start_port := 1000;
  vpn_end_port := 2000;
  vpn_ip := "127.0.0.1" |}.

(** ** The auth driver

    [AuthManager] reaches the identity backend through [self.driver()], a
    class chosen by [FLAGS.auth_driver] ([nova.auth.ldapdriver], not part of
    this file).  The driver is therefore an interface: a record of the
    operations the manager calls, over a backend state [S].  A lookup answers
    [None] for a missing entry; a scope of [None] is the global scope. *)
Record Driver (S : Type) : Type := {
  drv_get_user : S → string → option User.t;
  drv_get_user_from_access_key : S → string → option User.t;
  drv_get_project : S → string → option Project.t;
  drv_has_role : S → string → string → option string → bool;
  drv_add_role : S → string → string → option string → S;
  drv_remove_role : S → string → string → option string → S }.
Arguments drv_get_user {S} _ _ _.
Arguments drv_get_user_from_access_key {S} _ _ _.
Arguments drv_get_project {S} _ _ _.
Arguments drv_has_role {S} _ _ _ _ _.
Arguments drv_add_role {S} _ _ _ _ _.
Arguments drv_remove_role {S} _ _ _ _ _.

(** The same driver with another [has_role]; used to say that a result does
    not depend on the role grants. *)
Definition with_has_role {S} (drv : Driver S)
    (f : S → string → string → option string → bool) : Driver S := {|
  drv_get_user := drv_get_user drv;
  drv_get_user_from_access_key := drv_get_user_from_access_key drv;
  drv_get_project := drv_get_project drv;
  drv_has_role := f;
  drv_add_role := drv_add_role drv;
  drv_remove_role := drv_remove_role drv |}.

(** ** The signer

    [nova.auth.signer.Signer(secret)] is outside this file; the manager uses
    its two signature functions, taken here as parameters. *)
Definition params := list (string * string).
Definition headers := option (list (string * string)).

Record Signer : Type := {
  s3_authorization : string → headers → string → string → string;
  generate : string → params → string → string → string → string }.


(** ** Crypto and templates

    What [get_credentials] obtains from [nova.crypto] and from the template
    files: the rc text ([__generate_rc]), the private key and signed
    certificate ([_generate_x509_cert]), the rendered VPN client
    configuration and the CA certificate ([crypto.fetch_ca]). *)
Record Issuer : Type := {
  generate_rc : string → string → string → string;
  generate_x509_cert : string → string → string * string;
  vpn_client_config : string → Z → string;
  fetch_ca : string → string }.

(** ** The datastore behind [Vpn] *)

(** The [Vpn] object: its identifier and the ['ip'] and ['port'] entries that
    [create] writes (['project'] repeats the identifier). *)
Module VpnData.
Record t : Type := mk {
  project_id : string;
  ip : string;
  port : Z }.
End VpnData.

(** The part of redis that [Vpn] touches.  Keys are kept apart by family
    instead of by their text: [ports] holds the set under ['ip:%s:ports' % ip],
    [associations] the set under
    [_redis_association_name(foreign_type, foreign_id)] and [models] the
    saved [Vpn] objects by identifier. *)
Record datastore : Type := {
  ports : gmap string (gset Z);
  associations : gmap (string * string) (gset string);
  models : gmap string VpnData.t }.

Definition empty_datastore : datastore :=
  {| ports := ∅; associations := ∅; models := ∅ |}.

Module Redis.

(** Modelled from the spec: the key-value store of section 6
    ([nova.datastore.Redis] is not among the sources), with its set
    operations [exists], [setAdd], [setPop] and [setCardinality] on the
    port sets.  As in redis, a key exists exactly when its set has a member. *)
Definition smembers (r : datastore) (ip : string) : gset Z :=
  default ∅ (ports r !! ip).

(** Modelled from the spec: [exists(key)] of the key-value store, for the
    key ['ip:%s:ports' % ip]. *)
Definition exists_ports (r : datastore) (ip : string) : bool :=
  negb (bool_decide (smembers r ip = ∅)).

(** Modelled from the spec: [setAdd(key, member)] of the key-value store. *)
Definition sadd (r : datastore) (ip : string) (member : Z) : datastore :=
  {| ports := <[ip := {[member]} ∪ smembers r ip]> (ports r);
     associations := associations r;
     models := models r |}.

(** Modelled from the spec: [setPop(key) -> member|empty] of the key-value
    store.  The member taken is arbitrary: [choice] is the server's pick,
    read as an index into the members. *)
Definition spop (choice : nat) (r : datastore) (ip : string)
    : option Z * datastore :=
  let members := elements (smembers r ip) in
  match members !! (choice `mod` length members)%nat with
  | None => (None, r)
  | Some member =>
      (Some member,
       {| ports := <[ip := smembers r ip ∖ {[member]}]> (ports r);
          associations := associations r;
          models := models r |})
  end.

(** Modelled from the spec: [setCardinality(key)] of the key-value store. *)
Definition scard (r : datastore) (ip : string) : nat :=
  size (smembers r ip).

(** Modelled from the spec: [exists(key)] for the key of an association
    set. *)
Definition exists_association (r : datastore)
    (foreign_type foreign_id : string) : bool :=
  negb (bool_decide
          (default ∅ (associations r !! (foreign_type, foreign_id)) = ∅)).

End Redis.

Module BasicModel.

(** Modelled from the spec: [nova.datastore.BasicModel] is not among the
    sources.  Section 3 binds a port allocation to a network address and a
    tenant; [associate_with] records the object's identifier in the set of the
    objects associated with [(foreign_type, foreign_id)], the set whose key
    [find_free_port_for_ip] tests. *)
Definition associate_with (r : datastore) (identifier : string)
    (foreign_type foreign_id : string) : datastore :=
  let key := (foreign_type, foreign_id) in
  {| ports := ports r;
     associations :=
       <[key := {[identifier]} ∪ default ∅ (associations r !! key)]>
         (associations r);
     models := models r |}.

(** Modelled from the spec: the converse of [associate_with], missing from
    the sources in the same way. *)
Definition unassociate_with (r : datastore) (identifier : string)
    (foreign_type foreign_id : string) : datastore :=
  let key := (foreign_type, foreign_id) in
  {| ports := ports r;
     associations :=
       <[key := default ∅ (associations r !! key) ∖ {[identifier]}]>
         (associations r);
     models := models r |}.

(** Modelled from the spec: [BasicModel.save], which stores the port
    allocation of section 3 under the object's identifier. *)
Definition save (r : datastore) (vpn : VpnData.t) : datastore :=
  {| ports := ports r;
     associations := associations r;
     models := <[VpnData.project_id vpn := vpn]> (models r) |}.

(** Modelled from the spec: [BasicModel.destroy], which removes the stored
    object. *)
Definition destroy (r : datastore) (vpn : VpnData.t) : datastore :=
  {| ports := ports r;
     associations := associations r;
     models := delete (VpnData.project_id vpn) (models r) |}.

(** Modelled from the spec: [BasicModel.lookup], the stored object or
    [None] for an identifier never saved. *)
Definition lookup (r : datastore) (identifier : string)
    : option VpnData.t :=
  models r !! identifier.

End BasicModel.

(** ** Vpn: ips and ports for projects *)

Module Vpn.
Section Vpn.
Variable FLAGS : Flags.

(** [range(a, b)]. *)
Definition range (a b : Z) : list Z := seqZ a (b - a).

(** The set is seeded when neither the port set nor the association set of
    the ip exists; then one member is popped.  [spop] answers [None] only for
    a set without members: redis hands members back as text, which is never
    empty for a number. *)
Definition find_free_port_for_ip (choice : nat) (r : datastore)
    (ip : string) : result (Z * datastore) :=
  let r :=
    if negb (Redis.exists_ports r ip)
       && negb (Redis.exists_association r "ip" ip)
    then foldl (λ r i, Redis.sadd r ip i) r
           (range (vpn_start_port FLAGS) (vpn_end_port FLAGS + 1))
    else r in
  let '(port, r) := Redis.spop choice r ip in
  match port with
  | None => Raise NoMorePorts
  | Some port => Return (port, r)
  end.

Definition num_ports_for_ip (r : datastore) (ip : string) : nat :=
  Redis.scard r ip.

(** The pool of [ip] has been seeded: the test that guards the seeding in
    [find_free_port_for_ip] fails, because free ports are left or because a
    [Vpn] is associated with the ip. *)
Definition materialized (r : datastore) (ip : string) : bool :=
  Redis.exists_ports r ip || Redis.exists_association r "ip" ip.

(** The set [find_free_port_for_ip] pops from: the configured range on
    first use, the set as it stands afterwards. *)
Definition pool_at_pop (r : datastore) (ip : string) : gset Z :=
  if materialized r ip then Redis.smembers r ip
  else list_to_set (range (vpn_start_port FLAGS) (vpn_end_port FLAGS + 1)).

Definition save (r : datastore) (vpn : VpnData.t) : datastore :=
  let r := BasicModel.associate_with r (VpnData.project_id vpn) "ip"
             (VpnData.ip vpn) in
  BasicModel.save r vpn.

Definition create (choice : nat) (r : datastore) (project_id : string)
    : result (VpnData.t * datastore) :=
  do found <- find_free_port_for_ip choice r (vpn_ip FLAGS);
  let '(port, r) := found in
  let vpn := VpnData.mk project_id (vpn_ip FLAGS) port in
  Return (vpn, save r vpn).

Definition destroy (r : datastore) (vpn : VpnData.t) : datastore :=
  let r := BasicModel.unassociate_with r (VpnData.project_id vpn) "ip"
             (VpnData.ip vpn) in
  let r := Redis.sadd r (VpnData.ip vpn) (VpnData.port vpn) in
  BasicModel.destroy r vpn.

Definition lookup (r : datastore) (project_id : string)
    : option VpnData.t :=
  BasicModel.lookup r project_id.

(** [create] on one project, then [destroy] of the object it returned, for
    each pick in [choices]; the ports handed out, in order. *)
Fixpoint create_destroy_loop (choices : list nat) (r : datastore)
    (project_id : string) : result (list Z * datastore) :=
  match choices with
  | [] => Return ([], r)
  | choice :: rest =>
      do made <- create choice r project_id;
      let '(vpn, r) := made in
      do later <- create_destroy_loop rest (destroy r vpn) project_id;
      let '(handed, r) := later in
      Return (VpnData.port vpn :: handed, r)
  end.

End Vpn.
End Vpn.

(** ** Runs of the port pool *)

Module Pool.
Section Pool.
Variable FLAGS : Flags.

(** The ports of [range(FLAGS.vpn_start_port, FLAGS.vpn_end_port + 1)]. *)
Definition configured_ports : gset Z :=
  list_to_set (Vpn.range (vpn_start_port FLAGS) (vpn_end_port FLAGS + 1)).

Definition held_ports (held : list VpnData.t) : list Z :=
  VpnData.port <$> held.

(** The datastores that calls of [Vpn.create] and [Vpn.destroy] lead to
    from a first use of [FLAGS.vpn_ip], together with the objects that
    [create] has returned and [destroy] has not yet been called on.  A
    [create] that raises changes nothing and is no step. *)
Inductive reachable : datastore → list VpnData.t → Prop :=
  | reach_first_use r :
      Vpn.materialized r (vpn_ip FLAGS) = false →
      reachable r []
  | reach_create r held choice project_id vpn r' :
      reachable r held →
      Vpn.create FLAGS choice r project_id = Return (vpn, r') →
      reachable r' (vpn :: held)
  | reach_destroy r held1 vpn held2 :
      reachable r (held1 ++ vpn :: held2) →
      reachable (Vpn.destroy r vpn) (held1 ++ held2).

End Pool.
End Pool.

(** ** Projects and key pairs in the driver *)

Module KeyPair.
Record t : Type := mk {
  id : string;
  name : string;
  owner_id : string;
  public_key : string;
  fingerprint : string }.
End KeyPair.

(** The driver calls behind [create_project] and the key pair methods, an
    interface like [Driver].  A call that changes the backend returns the
    new state beside its answer; the answer is [None] when the driver hands
    back nothing. *)
Record AdminDriver (S : Type) : Type := {
  drv_create_project :
    S → string → string → option string → option (list string) →
    option Project.t * S;
  drv_get_key_pair : S → string → string → option KeyPair.t;
  drv_create_key_pair :
    S → string → string → string → string → option KeyPair.t * S }.
Arguments drv_create_project {S} _ _ _ _ _ _.
Arguments drv_get_key_pair {S} _ _ _ _.
Arguments drv_create_key_pair {S} _ _ _ _ _ _.

(** What [generate_key_pair] ends in: the private key and the fingerprint,
    or one of its two exceptions, [exception.NotFound] and
    [exception.Duplicate]. *)
Inductive generated : Type :=
  | Generated (private_key fingerprint : string)
  | RaiseNotFound
  | RaiseDuplicate.

(** What the role methods need of a driver to be composed: a grant added is
    there, a grant removed is gone, and no other grant changes. *)
Record grant_laws {S : Type} (drv : Driver S) : Prop := {
  has_role_add_eq st uid role scope :
    drv_has_role drv (drv_add_role drv st uid role scope) uid role scope
    = true;
  has_role_add_ne st uid role scope uid' role' scope' :
    (uid, role, scope) ≠ (uid', role', scope') →
    drv_has_role drv (drv_add_role drv st uid role scope) uid' role' scope'
    = drv_has_role drv st uid' role' scope';
  has_role_remove_eq st uid role scope :
    drv_has_role drv (drv_remove_role drv st uid role scope) uid role scope
    = false;
  has_role_remove_ne st uid role scope uid' role' scope' :
    (uid, role, scope) ≠ (uid', role', scope') →
    drv_has_role drv (drv_remove_role drv st uid role scope) uid' role'
      scope'
    = drv_has_role drv st uid' role' scope' }.

(** What [generate_key_pair] needs of a driver to be called twice: a key
    pair created is found again, and creating one changes no user. *)
Record key_pair_laws {S : Type} (drv : Driver S) (admin : AdminDriver S)
    : Prop := {
  key_pair_created st uid key_name public_key fingerprint :
    drv_get_key_pair admin
      (drv_create_key_pair admin st uid key_name public_key fingerprint).2
      uid key_name ≠ None;
  key_pair_keeps_users st uid key_name public_key fingerprint uid' :
    drv_get_user drv
      (drv_create_key_pair admin st uid key_name public_key fingerprint).2
      uid'
    = drv_get_user drv st uid' }.

(** ** AuthManager *)

Module AuthManager.
Section Manager.
Context {S : Type}.
Variable drv : Driver S.
Variable FLAGS : Flags.
Variable signer : Signer.
Variable issuer : Issuer.

(** [get_user], [get_user_from_access_key], [get_project]: the driver's
    dictionary turned into an object, [None] when the driver finds nothing. *)
Definition get_user (st : S) (uid : string) : option User.t :=
  drv_get_user drv st uid.

Definition get_user_from_access_key (st : S) (access_key : string)
    : option User.t :=
  drv_get_user_from_access_key drv st access_key.

Definition get_project (st : S) (pid : string) : option Project.t :=
  drv_get_project drv st pid.

(** [if not isinstance(user, User): user = self.get_user(user)], followed by
    an attribute access: an unknown uid leaves [None], whose attribute access
    raises. *)
Definition user_object (st : S) (user : user_arg) : result User.t :=
  match user with
  | UObj u => Return u
  | UId uid =>
      match get_user st uid with
      | Some u => Return u
      | None => Raise AttributeError
      end
  end.

(** [if not isinstance(project, Project): project = self.get_project(project)]
    followed by an attribute access.  No project has the id [None]. *)
Definition project_object (st : S) (project : project_arg)
    : result Project.t :=
  match project with
  | PObj p => Return p
  | PId pid =>
      match get_project st pid with
      | Some p => Return p
      | None => Raise AttributeError
      end
  | PNone => Raise AttributeError
  end.

Definition is_project_manager (st : S) (user : user_arg)
    (project : project_arg) : result bool :=
  do p <- project_object st project;
  Return (bool_decide (User_safe_id user = Project.project_manager_id p)).

Definition is_project_member (st : S) (user : user_arg)
    (project : project_arg) : result bool :=
  do p <- project_object st project;
  Return (bool_decide (User_safe_id user ∈ Project.member_ids p)).

Definition has_role (st : S) (user : user_arg) (role : string)
    (project : project_arg) : result bool :=
  if bool_decide (role = "projectmanager") then
    if negb (project_given project) then Raise Error
    else is_project_manager st user project
  else
    let global_role := drv_has_role drv st (User_safe_id user) role None in
    if negb global_role then Return global_role
    else if negb (project_given project)
            || bool_decide (role ∈ global_roles FLAGS)
    then Return global_role
    else Return (drv_has_role drv st (User_safe_id user) role
                   (Project_safe_id project)).

(** [for role in roles: if self.has_role(user, role): return True], and the
    end of the function after the loop. *)
Fixpoint first_role (st : S) (user : User.t) (roles : list string)
    : result pyval :=
  match roles with
  | [] => Return VNone
  | role :: rest =>
      do held <- has_role st (UObj user) role PNone;
      if held then Return (VBool true) else first_role st user rest
  end.

Definition is_superuser (st : S) (user : user_arg) : result pyval :=
  do u <- user_object st user;
  if User.admin u then Return (VBool true)
  else first_role st u (superuser_roles FLAGS).

Definition is_admin (st : S) (user : user_arg) : result pyval :=
  do u <- user_object st user;
  do su <- is_superuser st (UObj u);
  if truthy su then Return (VBool true)
  else first_role st u (global_roles FLAGS).

(** [add_role] and [remove_role] return nothing; the result is the backend
    state the driver call leaves. *)
Definition add_role (st : S) (user : user_arg) (role : string)
    (project : project_arg) : result S :=
  Return (drv_add_role drv st (User_safe_id user) role
            (Project_safe_id project)).

Definition remove_role (st : S) (user : user_arg) (role : string)
    (project : project_arg) : result S :=
  Return (drv_remove_role drv st (User_safe_id user) role
            (Project_safe_id project)).

(** [str.partition(':')]: the text before the first colon, the separator and
    the text after it; without a colon the whole string and two empty
    strings. *)
Fixpoint partition_colon (s : string) : string * string * string :=
  match s with
  | EmptyString => ("", "", "")
  | String c rest =>
      if bool_decide (c = ":"%char) then ("", ":", rest)
      else let '(before, sep, after) := partition_colon rest in
           (String c before, sep, after)
  end.

Definition authenticate (st : S) (access signature : string)
    (prms : params) (verb server_string path check_type : string)
    (hdrs : headers) : result (User.t * Project.t) :=
  let '(access_key, _, project_id) := partition_colon access in
  match get_user_from_access_key st access_key with
  | None => Raise NotFound
  | Some user =>
      let project_id :=
        if bool_decide (project_id = "") then User.name user
        else project_id in
      match get_project st project_id with
      | None => Raise NotFound
      | Some project =>
          do adm <- is_admin st (UObj user);
          do denied <- (if negb (truthy adm)
                        then do mem <- is_project_member st (UObj user)
                                         (PObj project);
                             Return (negb mem)
                        else Return false);
          if denied then Raise NotFound
          else if bool_decide (check_type = "s3") then
            let expected_signature :=
              s3_authorization signer (User.secret user) hdrs verb path in
            if negb (bool_decide (signature = expected_signature))
            then Raise NotAuthorized
            else Return (user, project)
          else if bool_decide (check_type = "ec2") then
            let expected_signature :=
              generate signer (User.secret user) prms verb server_string
                path in
            if negb (bool_decide (signature = expected_signature))
            then Raise NotAuthorized
            else Return (user, project)
          else Return (user, project)
      end
  end.

(** The zip is given by its entries, in the order they are written.  After
    [if project is None: project = user.id] the project is never [None], so
    [Project.safe_id] always yields an id.  When no vpn is found, the message
    of the exception is built from [project.name], which only a [Project]
    object has. *)
Definition get_credentials (st : S) (r : datastore) (user : user_arg)
    (project : project_arg) : result (list (string * string)) :=
  do u <- user_object st user;
  let project :=
    match project with
    | PNone => PId (User.id u)
    | _ => project
    end in
  let pid := default "" (Project_safe_id project) in
  let rc := generate_rc issuer (User.access u) (User.secret u) pid in
  let '(private_key, signed_cert) :=
    generate_x509_cert issuer (User.id u) pid in
  match Vpn.lookup r pid with
  | None =>
      match project with
      | PObj _ => Raise Error
      | _ => Raise AttributeError
      end
  | Some vpn =>
      let config :=
        vpn_client_config issuer (VpnData.ip vpn) (VpnData.port vpn) in
      Return [ (credential_rc_file FLAGS, rc);
               (credential_key_file FLAGS, private_key);
               (credential_cert_file FLAGS, signed_cert);
               ("nebula-client.conf", config);
               (ca_file FLAGS, fetch_ca issuer (User.id u)) ]
  end.

(** ** Projects, vpn data and key pairs

    The methods below also reach the driver calls of [AdminDriver]. *)
Variable admin : AdminDriver S.

(** [(None, None)] when no vpn is found, else the ip and the port of the
    stored object.  [Vpn.lookup] is given [Project.safe_id(project)] as it
    is: the key of a stored object is built by formatting its identifier
    with [%s], so the identifier [None] reads the key of the text ["None"]. *)
Definition get_project_vpn_data (r : datastore) (project : project_arg)
    : option string * option Z :=
  let identifier := default "None" (Project_safe_id project) in
  match Vpn.lookup r identifier with
  | None => (None, None)
  | Some vpn => (Some (VpnData.ip vpn), Some (VpnData.port vpn))
  end.

(** The backend and the datastore are both left as the calls made so far
    have put them, also when [Vpn.create] raises: the project the driver has
    created stays.  [Vpn.create] raises before it writes anything, so the
    datastore is then the one it was given.  [choice] is the pick of the
    [spop] inside [Vpn.create]. *)
Definition create_project (st : S) (r : datastore) (choice : nat)
    (name : string) (manager_user : user_arg) (description : option string)
    (member_users : option (list user_arg))
    : S * datastore * result (option Project.t) :=
  let member_users := fmap (M := list) User_safe_id <$> member_users in
  let '(project_dict, st) :=
    drv_create_project admin st name (User_safe_id manager_user) description
      member_users in
  match project_dict with
  | Some project =>
      if use_vpn FLAGS then
        match Vpn.create FLAGS choice r (Project.id project) with
        | Return (_, r') => (st, r', Return (Some project))
        | Raise e => (st, r, Raise e)
        end
      else (st, r, Return (Some project))
  | None => (st, r, Return None)
  end.

Definition create_key_pair (st : S) (user : user_arg)
    (key_name public_key fingerprint : string) : option KeyPair.t * S :=
  drv_create_key_pair admin st (User_safe_id user) key_name public_key
    fingerprint.

Definition get_key_pair (st : S) (user : user_arg) (key_name : string)
    : option KeyPair.t :=
  drv_get_key_pair admin st (User_safe_id user) key_name.

(** [fresh] is what this call of [crypto.generate_key_pair()] yields: the
    private key, the public key and the fingerprint. *)
Definition generate_key_pair (st : S) (user : user_arg) (key_name : string)
    (fresh : string * string * string) : S * generated :=
  let uid := User_safe_id user in
  match drv_get_user drv st uid with
  | None => (st, RaiseNotFound)
  | Some _ =>
      match drv_get_key_pair admin st uid key_name with
      | Some _ => (st, RaiseDuplicate)
      | None =>
          let '(private_key, public_key, fingerprint) := fresh in
          let st := (create_key_pair st (UId uid) key_name public_key
                       fingerprint).2 in
          (st, Generated private_key fingerprint)
      end
  end.

End Manager.
End AuthManager.

(** ** A reference backend

    An in-memory identity store, used to run the manager on concrete
    inputs. *)
Module MemoryDriver.

(** Modelled from the spec: the identity store of section 6 and the role
    grants of section 3 ([nova.auth.ldapdriver] is not among the sources): a
    grant is a triple of principal id, role name and scope, the scope [None]
    being the global one. *)
Record t : Type := {
  users : list User.t;
  projects : list Project.t;
  grants : gset (string * string * option string) }.

(** Modelled from the spec: [getUser(id)], absent as [None]. *)
Definition get_user (st : t) (uid : string) : option User.t :=
  List.find (λ u, bool_decide (User.id u = uid)) (users st).

(** Modelled from the spec: [getUserByAccessKey(key)]. *)
Definition get_user_from_access_key (st : t) (key : string)
    : option User.t :=
  List.find (λ u, bool_decide (User.access u = key)) (users st).

(** Modelled from the spec: [getProject(id)]. *)
Definition get_project (st : t) (pid : string) : option Project.t :=
  List.find (λ p, bool_decide (Project.id p = pid)) (projects st).

(** Modelled from the spec: [hasRole(userId, role, scope)]. *)
Definition has_role (st : t) (uid role : string) (scope : option string)
    : bool :=
  bool_decide ((uid, role, scope) ∈ grants st).

(** Modelled from the spec: [addRole(userId, role, scope)]. *)
Definition add_role (st : t) (uid role : string) (scope : option string)
    : t :=
  {| users := users st; projects := projects st;
     grants := {[ (uid, role, scope) ]} ∪ grants st |}.

(** Modelled from the spec: [removeRole(userId, role, scope)]. *)
Definition remove_role (st : t) (uid role : string) (scope : option string)
    : t :=
  {| users := users st; projects := projects st;
     grants := grants st ∖ {[ (uid, role, scope) ]} |}.

Definition driver : Driver t := {|
  drv_get_user := get_user;
  drv_get_user_from_access_key := get_user_from_access_key;
  drv_get_project := get_project;
  drv_has_role := has_role;
  drv_add_role := add_role;
  drv_remove_role := remove_role |}.

End MemoryDriver.

(** Concrete objects for the examples. *)
Module Sample.

Definition u1 : User.t := User.mk "u1" "u1" "AK1" "SK1" false.
Definition u2 : User.t := User.mk "u2" "u2" "AK2" "SK2" false.
Definition root : User.t := User.mk "root" "root" "AK0" "SK0" true.
Definition t1 : Project.t := Project.mk "t1" "t1" "u1" "first" ["u1"].
Definition t2 : Project.t := Project.mk "t2" "t2" "root" "second" ["root"].

(** [u1] holds [sysadmin] in [t1] only, and nothing globally; [u2] holds
    [netadmin] globally and in [t1], and [itsec] globally. *)
Definition store : MemoryDriver.t := {|
  MemoryDriver.users := [u1; u2; root];
  MemoryDriver.projects := [t1; t2];
  MemoryDriver.grants :=
    {[ ("u1", "sysadmin", Some "t1");
       ("u2", "netadmin", None); ("u2", "netadmin", Some "t1");
       ("u2", "itsec", None) ]} |}.

(** A stand-in signer: the text that would be signed, after the key. *)
Definition signer : Signer := {|
  s3_authorization secret hdrs verb path :=
    secret +:+ "|" +:+ verb +:+ "|" +:+ path;
  generate secret prms verb server_string path :=
    secret +:+ "|" +:+ verb +:+ "|" +:+ server_string +:+ "|" +:+ path
    +:+ "|" +:+ String.concat "&" (map (λ kv, kv.1 +:+ "=" +:+ kv.2) prms) |}.

Definition issuer : Issuer := {|
  generate_rc access secret pid := access +:+ ":" +:+ pid;
  generate_x509_cert uid pid := ("key of " +:+ uid, "cert for " +:+ pid);
  vpn_client_config ip port := "remote " +:+ ip;
  fetch_ca uid := "ca" |}.

(** The flags with a single VPN port. *)
Definition one_port : Flags := {|
  superuser_roles := superuser_roles default_flags;
  global_roles := global_roles default_flags;
  use_vpn := use_vpn default_flags;
  credential_key_file := credential_key_file default_flags;
  credential_cert_file := credential_cert_file default_flags;
  credential_rc_file := credential_rc_file default_flags;
  ca_file := ca_file default_flags;
  vpn_start_port := 1000;
  vpn_end_port := 1000;
  vpn_ip := vpn_ip default_flags |}.

(** The flags with three VPN ports, and a datastore whose pool for the
    default ip holds them. *)
Definition three_ports : Flags := {|
  superuser_roles := superuser_roles default_flags;
  global_roles := global_roles default_flags;
  use_vpn := use_vpn default_flags;
  credential_key_file := credential_key_file default_flags;
  credential_cert_file := credential_cert_file default_flags;
  credential_rc_file := credential_rc_file default_flags;
  ca_file := ca_file default_flags;
  vpn_start_port := 1000;
  vpn_end_port := 1002;
  vpn_ip := vpn_ip default_flags |}.

Definition seeded : datastore :=
  foldl (λ r i, Redis.sadd r "127.0.0.1" i) empty_datastore
    [1000; 1001; 1002]%Z.

End Sample.

(** A reference backend for projects and key pairs, on top of
    [MemoryDriver]. *)
Module MemoryAdmin.

Record t : Type := {
  identities : MemoryDriver.t;
  key_pairs : list KeyPair.t }.

Definition lift (f : MemoryDriver.t → MemoryDriver.t) (st : t) : t :=
  {| identities := f (identities st); key_pairs := key_pairs st |}.

Definition driver : Driver t := {|
  drv_get_user st := MemoryDriver.get_user (identities st);
  drv_get_user_from_access_key st :=
    MemoryDriver.get_user_from_access_key (identities st);
  drv_get_project st := MemoryDriver.get_project (identities st);
  drv_has_role st := MemoryDriver.has_role (identities st);
  drv_add_role st uid role scope :=
    lift (λ ids, MemoryDriver.add_role ids uid role scope) st;
  drv_remove_role st uid role scope :=
    lift (λ ids, MemoryDriver.remove_role ids uid role scope) st |}.

(** Modelled from the spec: [createProject(name, managerId, description?,
    memberIds?)] of section 6; nothing is created, and nothing handed back,
    for an id already taken.  The name is the id and the default
    description, and the manager is made a member, as the docstring of
    [create_project] says. *)
Definition create_project (st : t) (name manager_id : string)
    (description : option string) (member_ids : option (list string))
    : option Project.t * t :=
  match MemoryDriver.get_project (identities st) name with
  | Some _ => (None, st)
  | None =>
      let members := default [] member_ids in
      let project :=
        Project.mk name name manager_id (default name description)
          (if bool_decide (manager_id ∈ members) then members
           else manager_id :: members) in
      (Some project,
       lift (λ ids,
         {| MemoryDriver.users := MemoryDriver.users ids;
            MemoryDriver.projects := project :: MemoryDriver.projects ids;
            MemoryDriver.grants := MemoryDriver.grants ids |}) st)
  end.

(** Modelled from the spec: [getKeyPair] of section 6, by owner and name. *)
Definition get_key_pair (st : t) (uid key_name : string)
    : option KeyPair.t :=
  List.find (λ kp, bool_decide (KeyPair.owner_id kp = uid)
                   && bool_decide (KeyPair.name kp = key_name))
    (key_pairs st).

(** Modelled from the spec: [createKeyPair] of section 6. *)
Definition create_key_pair (st : t)
    (uid key_name public_key fingerprint : string) : option KeyPair.t * t :=
  let kp := KeyPair.mk key_name key_name uid public_key fingerprint in
  (Some kp, {| identities := identities st; key_pairs := kp :: key_pairs st |}).

Definition admin : AdminDriver t := {|
  drv_create_project := create_project;
  drv_get_key_pair := get_key_pair;
  drv_create_key_pair := create_key_pair |}.

End MemoryAdmin.

(** More concrete objects for the examples. *)
Module Fixture.

(** Flags that list [projectmanager] among the superuser roles. *)
Definition projectmanager_superuser : Flags := {|
  superuser_roles := ["cloudadmin"; "projectmanager"];
  global_roles := global_roles default_flags;
  use_vpn := use_vpn default_flags;
  credential_key_file := credential_key_file default_flags;
  credential_cert_file := credential_cert_file default_flags;
  credential_rc_file := credential_rc_file default_flags;
  ca_file := ca_file default_flags;
  vpn_start_port := vpn_start_port default_flags;
  vpn_end_port := vpn_end_port default_flags;
  vpn_ip := vpn_ip default_flags |}.

Definition backend : MemoryAdmin.t := {|
  MemoryAdmin.identities := Sample.store;
  MemoryAdmin.key_pairs := [] |}.

End Fixture.

Import AuthManager.

(** * Properties *)

(** ** Role checks *)

Section RoleChecks.
Context {S : Type}.
Variable drv : Driver S.
Variable FLAGS : Flags.

Lemma bind_Return {A B : Type} (m : result A) (k : A → result B) (a : A) :
  m = Return a → bind m k = k a.
Proof. by intros ->. Qed.

Lemma bind_inv_Return {A B : Type} (m : result A) (k : A → result B) b :
  bind m k = Return b → ∃ a, m = Return a ∧ k a = Return b.
Proof. destruct m as [a|e]; simpl; [eauto | discriminate]. Qed.

Lemma bind_inv_Raise {A B : Type} (m : result A) (k : A → result B) e :
  bind m k = Raise e →
  m = Raise e ∨ ∃ a, m = Return a ∧ k a = Raise e.
Proof. destruct m as [a|e']; simpl; [eauto | intros [= ->]; eauto]. Qed.

(** With a role other than [projectmanager] the first test of [has_role]
    fails and the global grant is looked up. *)
Lemma has_role_ordinary st user role project :
  role ≠ "projectmanager" →
  has_role drv FLAGS st user role project =
    if negb (drv_has_role drv st (User_safe_id user) role None)
    then Return (drv_has_role drv st (User_safe_id user) role None)
    else if negb (project_given project)
            || bool_decide (role ∈ global_roles FLAGS)
    then Return (drv_has_role drv st (User_safe_id user) role None)
    else Return (drv_has_role drv st (User_safe_id user) role
                   (Project_safe_id project)).
Proof. intros Hrole. unfold has_role. by rewrite bool_decide_false. Qed.

(** C1.  For a role other than [projectmanager]: without a global grant of
    the role [has_role] answers false whatever the project and whatever the
    grants in that project; with the global grant it answers the global
    result when no project is given or the role is one of
    [FLAGS.global_roles], and the driver's project-scoped answer otherwise. *)
Theorem has_role_global_grant_first st user role project :
  role ≠ "projectmanager" →
  (drv_has_role drv st (User_safe_id user) role None = false →
   has_role drv FLAGS st user role project = Return false)
  ∧ (drv_has_role drv st (User_safe_id user) role None = true →
     project_given project = false ∨ role ∈ global_roles FLAGS →
     has_role drv FLAGS st user role project = Return true)
  ∧ (drv_has_role drv st (User_safe_id user) role None = true →
     project_given project = true →
     role ∉ global_roles FLAGS →
     has_role drv FLAGS st user role project =
       Return (drv_has_role drv st (User_safe_id user) role
                 (Project_safe_id project))).
Proof.
  intros Hrole. rewrite (has_role_ordinary _ _ _ _ Hrole).
  split; [|split].
  - by intros ->.
  - intros -> [-> | Hglobal]; simpl; [done|].
    by rewrite (bool_decide_true _ Hglobal), orb_true_r.
  - intros -> -> Hlocal; simpl. by rewrite bool_decide_false.
Qed.

(** C5.  [has_role] with the role [projectmanager] and a project compares
    the user's id with the project's manager id, gives the same answer
    whatever the driver's [has_role] says, and raises [Error] when no
    project is given. *)
Theorem has_role_projectmanager st user (p : Project.t) :
  has_role drv FLAGS st user "projectmanager" (PObj p) =
    Return (bool_decide (User_safe_id user = Project.project_manager_id p))
  ∧ (has_role drv FLAGS st user "projectmanager" (PObj p) = Return true
     ↔ User_safe_id user = Project.project_manager_id p)
  ∧ (∀ grants,
       has_role (with_has_role drv grants) FLAGS st user "projectmanager"
         (PObj p) =
       has_role drv FLAGS st user "projectmanager" (PObj p))
  ∧ has_role drv FLAGS st user "projectmanager" PNone = Raise Error.
Proof.
  assert (has_role drv FLAGS st user "projectmanager" (PObj p) =
    Return (bool_decide (User_safe_id user = Project.project_manager_id p)))
    as Heq by done.
  split; [done|]. split; [|done].
  rewrite Heq. split.
  - intros [= H]. by apply bool_decide_eq_true in H.
  - intros H. f_equal. by apply bool_decide_eq_true.
Qed.

(** A project named by its id is fetched from the driver first; the role
    grants are still not consulted. *)
Lemma has_role_projectmanager_by_id st user pid (p : Project.t) :
  pid ≠ "" →
  drv_get_project drv st pid = Some p →
  has_role drv FLAGS st user "projectmanager" (PId pid) =
    Return (bool_decide (User_safe_id user = Project.project_manager_id p)).
Proof.
  intros Hpid Hp. unfold has_role, project_given.
  rewrite (bool_decide_false _ Hpid), bool_decide_true by done; simpl.
  unfold is_project_manager, project_object, get_project. by rewrite Hp.
Qed.

(** [first_role] answers [True] or nothing, never [False]. *)
Lemma first_role_never_False st u roles b :
  first_role drv FLAGS st u roles = Return (VBool b) → b = true.
Proof.
  induction roles as [|role rest IH]; simpl; [discriminate|].
  destruct (has_role drv FLAGS st (UObj u) role PNone) as [[|]|e]; simpl.
  - by intros [= <-].
  - done.
  - discriminate.
Qed.

Lemma first_role_none_held st u roles :
  (∀ role, role ∈ roles →
     has_role drv FLAGS st (UObj u) role PNone = Return false) →
  first_role drv FLAGS st u roles = Return VNone.
Proof.
  induction roles as [|role rest IH]; intros Hnone; simpl; [done|].
  rewrite (Hnone role) by set_solver. simpl.
  apply IH. intros r Hr. apply Hnone. set_solver.
Qed.

(** C8.  A user whose admin flag is set is a superuser and an admin,
    whatever the driver, its state and the configured role lists. *)
Theorem admin_flag_gives_superuser_and_admin st user (u : User.t) :
  user_object drv st user = Return u →
  User.admin u = true →
  is_superuser drv FLAGS st user = Return (VBool true)
  ∧ is_admin drv FLAGS st user = Return (VBool true).
Proof.
  intros Hu Hadmin. unfold is_admin, is_superuser.
  rewrite !(bind_Return _ _ _ Hu). simpl. by rewrite Hadmin.
Qed.

(** C10.  When the admin flag is false and [has_role] is false for every
    configured superuser role, [is_superuser] returns [None]; when
    [is_superuser] is not true and [has_role] is false for every configured
    global role, [is_admin] returns [None].  Neither function ever returns
    [False]. *)
Theorem is_superuser_is_admin_return_None st user (u : User.t) :
  user_object drv st user = Return u →
  (User.admin u = false →
   (∀ role, role ∈ superuser_roles FLAGS →
      has_role drv FLAGS st (UObj u) role PNone = Return false) →
   is_superuser drv FLAGS st user = Return VNone)
  ∧ (∀ su, is_superuser drv FLAGS st (UObj u) = Return su →
     truthy su = false →
     (∀ role, role ∈ global_roles FLAGS →
        has_role drv FLAGS st (UObj u) role PNone = Return false) →
     is_admin drv FLAGS st user = Return VNone)
  ∧ is_superuser drv FLAGS st user ≠ Return (VBool false)
  ∧ is_admin drv FLAGS st user ≠ Return (VBool false).
Proof.
  intros Hu. split; [|split; [|split]].
  - intros Hadmin Hnone. unfold is_superuser.
    rewrite (bind_Return _ _ _ Hu), Hadmin.
    by apply first_role_none_held.
  - intros su Hsu Hfalse Hnone. unfold is_admin.
    rewrite (bind_Return _ _ _ Hu), (bind_Return _ _ _ Hsu), Hfalse.
    by apply first_role_none_held.
  - unfold is_superuser. rewrite (bind_Return _ _ _ Hu).
    destruct (User.admin u); [done|].
    intros H. by apply first_role_never_False in H.
  - unfold is_admin. rewrite (bind_Return _ _ _ Hu).
    destruct (is_superuser drv FLAGS st (UObj u)) as [su|e]; simpl; [|done].
    destruct (truthy su); [done|].
    intros H. by apply first_role_never_False in H.
Qed.

(** [add_role] and [remove_role] hand every role to the driver. *)
Lemma add_role_delegates st user role project :
  add_role drv st user role project =
    Return (drv_add_role drv st (User_safe_id user) role
              (Project_safe_id project)).
Proof. reflexivity. Qed.

Lemma remove_role_delegates st user role project :
  remove_role drv st user role project =
    Return (drv_remove_role drv st (User_safe_id user) role
              (Project_safe_id project)).
Proof. reflexivity. Qed.

End RoleChecks.

(** On the sample store: a project grant without the global one, a global
    role, and a project-scoped answer under a global grant. *)
Lemma has_role_global_grant_first_witness :
  MemoryDriver.has_role Sample.store "u1" "sysadmin" (Some "t1") = true
  ∧ has_role MemoryDriver.driver default_flags Sample.store
      (UObj Sample.u1) "sysadmin" (PObj Sample.t1) = Return false
  ∧ has_role MemoryDriver.driver default_flags Sample.store
      (UObj Sample.u2) "itsec" (PObj Sample.t2) = Return true
  ∧ has_role MemoryDriver.driver default_flags Sample.store
      (UObj Sample.u2) "netadmin" (PObj Sample.t2) = Return false.
Proof.
  split; [by vm_compute|]. split; [|split].
  - apply (proj1 (has_role_global_grant_first MemoryDriver.driver
             default_flags Sample.store (UObj Sample.u1) "sysadmin"
             (PObj Sample.t1) ltac:(discriminate))).
    by vm_compute.
  - apply (proj1 (proj2 (has_role_global_grant_first MemoryDriver.driver
             default_flags Sample.store (UObj Sample.u2) "itsec"
             (PObj Sample.t2) ltac:(discriminate)))).
    + by vm_compute.
    + right. apply list_elem_of_In. simpl. tauto.
  - apply (proj2 (proj2 (has_role_global_grant_first MemoryDriver.driver
             default_flags Sample.store (UObj Sample.u2) "netadmin"
             (PObj Sample.t2) ltac:(discriminate)))).
    + by vm_compute.
    + reflexivity.
    + intros H. apply list_elem_of_In in H. simpl in H.
      destruct H as [H|[H|[]]]; discriminate H.
Defined.

Lemma admin_flag_gives_superuser_and_admin_witness :
  is_superuser MemoryDriver.driver default_flags Sample.store
    (UId "root") = Return (VBool true)
  ∧ is_admin MemoryDriver.driver default_flags Sample.store
      (UId "root") = Return (VBool true).
Proof.
  apply (admin_flag_gives_superuser_and_admin MemoryDriver.driver
           default_flags Sample.store (UId "root") Sample.root);
    reflexivity.
Defined.

Lemma is_superuser_is_admin_return_None_witness :
  is_superuser MemoryDriver.driver default_flags Sample.store
    (UObj Sample.u1) = Return VNone
  ∧ is_admin MemoryDriver.driver default_flags Sample.store
      (UObj Sample.u1) = Return VNone.
Proof.
  pose proof (is_superuser_is_admin_return_None MemoryDriver.driver
                default_flags Sample.store (UObj Sample.u1) Sample.u1
                eq_refl) as (Hsu & Hadm & _).
  split.
  - apply Hsu; [reflexivity|]. intros role Hrole.
    apply list_elem_of_In in Hrole. simpl in Hrole.
    destruct Hrole as [<-|[]]. by vm_compute.
  - apply (Hadm VNone); [by vm_compute | reflexivity |].
    intros role Hrole. apply list_elem_of_In in Hrole. simpl in Hrole.
    destruct Hrole as [<-|[<-|[]]]; by vm_compute.
Defined.

(** C4.  The code at the input of the defect: [add_role] and [remove_role]
    with the role [projectmanager] raise nothing and reach the driver, which
    records, respectively drops, the grant. *)
Theorem projectmanager_role_reaches_driver :
  add_role MemoryDriver.driver Sample.store (UObj Sample.u1)
    "projectmanager" PNone =
    Return (MemoryDriver.add_role Sample.store "u1" "projectmanager" None)
  ∧ MemoryDriver.has_role Sample.store "u1" "projectmanager" None = false
  ∧ MemoryDriver.has_role
      (MemoryDriver.add_role Sample.store "u1" "projectmanager" None)
      "u1" "projectmanager" None = true
  ∧ remove_role MemoryDriver.driver
      (MemoryDriver.add_role Sample.store "u1" "projectmanager" None)
      (UObj Sample.u1) "projectmanager" (PObj Sample.t1) =
    Return (MemoryDriver.remove_role
              (MemoryDriver.add_role Sample.store "u1" "projectmanager" None)
              "u1" "projectmanager" (Some "t1")).
Proof. repeat split; by vm_compute. Qed.

(** ** Authentication *)

Section Authentication.
Context {S : Type}.
Variable drv : Driver S.
Variable FLAGS : Flags.
Variable signer : Signer.

(** [authenticate] once the user and the project are found and [is_admin]
    has returned: the membership test, then the signature test. *)
Lemma authenticate_resolved st access signature prms verb server_string path
    check_type hdrs access_key sep project_id user project adm :
  partition_colon access = (access_key, sep, project_id) →
  get_user_from_access_key drv st access_key = Some user →
  get_project drv st
    (if bool_decide (project_id = "") then User.name user else project_id)
    = Some project →
  is_admin drv FLAGS st (UObj user) = Return adm →
  authenticate drv FLAGS signer st access signature prms verb server_string
    path check_type hdrs =
  if negb (truthy adm)
     && negb (bool_decide (User.id user ∈ Project.member_ids project))
  then Raise NotFound
  else if bool_decide (check_type = "s3") then
    if bool_decide
         (signature =
          s3_authorization signer (User.secret user) hdrs verb path)
    then Return (user, project) else Raise NotAuthorized
  else if bool_decide (check_type = "ec2") then
    if bool_decide
         (signature =
          generate signer (User.secret user) prms verb server_string path)
    then Return (user, project) else Raise NotAuthorized
  else Return (user, project).
Proof.
  intros Hpart Huser Hproject Hadm. unfold authenticate.
  rewrite Hpart, Huser, Hproject, (bind_Return _ _ _ Hadm).
  destruct (truthy adm); cbn [negb andb bind].
  - by repeat case_bool_decide.
  - unfold is_project_member; cbn [project_object bind User_safe_id].
    by repeat case_bool_decide.
Qed.

(** With a [User] object and no project, [has_role] raises nothing but
    [Error], and so do the loops over the configured roles. *)
Lemma has_role_raises_Error st user role e :
  has_role drv FLAGS st (UObj user) role PNone = Raise e → e = Error.
Proof.
  unfold has_role. case_bool_decide; simpl; [by intros [= <-]|].
  by repeat case_match.
Qed.

Lemma first_role_raises_Error st user roles e :
  first_role drv FLAGS st user roles = Raise e → e = Error.
Proof.
  induction roles as [|role rest IH]; simpl; [discriminate|].
  intros [H | (held & _ & H)]%bind_inv_Raise.
  - by eapply has_role_raises_Error.
  - destruct held; [discriminate | by apply IH].
Qed.

Lemma is_admin_raises_Error st user e :
  is_admin drv FLAGS st (UObj user) = Raise e → e = Error.
Proof.
  unfold is_admin, is_superuser; simpl.
  destruct (User.admin user); simpl; [discriminate|].
  intros [H | (su & _ & H)]%bind_inv_Raise.
  - by eapply first_role_raises_Error.
  - destruct (truthy su); [discriminate | by eapply first_role_raises_Error].
Qed.

(** [is_admin] raises only through a configured role named [projectmanager],
    which [has_role] refuses without a project: with no such role in the two
    lists it always returns. *)
Lemma first_role_returns st user roles :
  "projectmanager" ∉ roles →
  ∃ v, first_role drv FLAGS st user roles = Return v.
Proof.
  induction roles as [|role rest IH]; intros Hnot; [by exists VNone|].
  apply not_elem_of_cons in Hnot as [Hne Hrest].
  cbn [first_role].
  rewrite (has_role_ordinary drv FLAGS st (UObj user) role PNone
             (not_eq_sym Hne)).
  cbn [User_safe_id project_given negb orb].
  destruct (drv_has_role drv st (User.id user) role None); cbn [negb bind];
    [by exists (VBool true) | by apply IH].
Qed.

Lemma is_admin_returns st user :
  "projectmanager" ∉ superuser_roles FLAGS →
  "projectmanager" ∉ global_roles FLAGS →
  ∃ adm, is_admin drv FLAGS st (UObj user) = Return adm.
Proof.
  intros Hsu Hglobal. unfold is_admin, is_superuser; simpl.
  destruct (User.admin user); simpl; [by eauto|].
  destruct (first_role_returns st user _ Hsu) as [su ->]; simpl.
  destruct (truthy su); [by eauto|].
  by apply first_role_returns.
Qed.

(** [NotAuthorized] comes from the signature test only: whenever
    [authenticate] raises it, the check type is [s3] or [ec2] and the
    signature differs from the one computed from the user's secret. *)
Lemma authenticate_NotAuthorized_inv st access signature prms verb
    server_string path check_type hdrs :
  authenticate drv FLAGS signer st access signature prms verb server_string
    path check_type hdrs = Raise NotAuthorized →
  ∃ user,
    get_user_from_access_key drv st (partition_colon access).1.1 = Some user
    ∧ ((check_type = "s3"
        ∧ signature ≠
          s3_authorization signer (User.secret user) hdrs verb path)
       ∨ (check_type = "ec2"
          ∧ signature ≠
            generate signer (User.secret user) prms verb server_string
              path)).
Proof.
  destruct (partition_colon access) as [[access_key sep] project_id] eqn:Hp.
  simpl.
  destruct (get_user_from_access_key drv st access_key) as [user|] eqn:Hu;
    [|by unfold authenticate; rewrite Hp, Hu].
  destruct (get_project drv st
              (if bool_decide (project_id = "") then User.name user
               else project_id)) as [project|] eqn:Hpr;
    [|by unfold authenticate; rewrite Hp, Hu, Hpr].
  destruct (is_admin drv FLAGS st (UObj user)) as [adm|e] eqn:Hadm.
  - rewrite (authenticate_resolved _ _ _ _ _ _ _ _ _ _ _ _ _ _ _
               Hp Hu Hpr Hadm).
    intros H. exists user. split; [done|].
    repeat case_match; try discriminate;
      repeat match goal with
             | H : bool_decide _ = _ |- _ =>
                 first [ apply bool_decide_eq_true in H
                       | apply bool_decide_eq_false in H ]
             end; auto.
  - unfold authenticate. rewrite Hp, Hu, Hpr, Hadm. simpl.
    apply is_admin_raises_Error in Hadm as ->. discriminate.
Qed.

(** C2.  Once the user and the project are found and the membership test
    has passed, [authenticate] raises [NotAuthorized] exactly when the check
    type is [s3] or [ec2] and the signature is not equal to the one computed
    from the user's secret; otherwise the request is accepted, and with any
    other check type it is accepted whatever the signature. *)
Theorem authenticate_signature_check st access signature prms verb
    server_string path check_type hdrs access_key sep project_id user
    project adm :
  partition_colon access = (access_key, sep, project_id) →
  get_user_from_access_key drv st access_key = Some user →
  get_project drv st
    (if bool_decide (project_id = "") then User.name user else project_id)
    = Some project →
  is_admin drv FLAGS st (UObj user) = Return adm →
  truthy adm = true ∨ User.id user ∈ Project.member_ids project →
  (authenticate drv FLAGS signer st access signature prms verb server_string
     path check_type hdrs = Raise NotAuthorized
   ↔ (check_type = "s3"
      ∧ signature ≠
        s3_authorization signer (User.secret user) hdrs verb path)
     ∨ (check_type = "ec2"
        ∧ signature ≠
          generate signer (User.secret user) prms verb server_string path))
  ∧ (authenticate drv FLAGS signer st access signature prms verb
       server_string path check_type hdrs ≠ Raise NotAuthorized →
     authenticate drv FLAGS signer st access signature prms verb
       server_string path check_type hdrs = Return (user, project))
  ∧ (check_type ≠ "s3" → check_type ≠ "ec2" →
     authenticate drv FLAGS signer st access signature prms verb
       server_string path check_type hdrs = Return (user, project)).
Proof.
  intros Hpart Huser Hproject Hadm Hmember.
  rewrite (authenticate_resolved _ _ _ _ _ _ _ _ _ _ _ _ _ _ _
             Hpart Huser Hproject Hadm).
  assert (negb (truthy adm)
          && negb (bool_decide (User.id user ∈ Project.member_ids project))
          = false) as ->.
  { destruct Hmember as [-> | Hin]; [done|].
    by rewrite (bool_decide_true _ Hin), andb_false_r. }
  repeat case_bool_decide; subst; split_and!; try done;
    try (split; [done | intros [[? ?] | [? ?]]; congruence]);
    try (split; [intros _ | done]); auto.
Qed.

(** C3.  An unknown access key and an unknown project raise [NotFound].
    Once both are found and [is_admin] has returned, [authenticate] goes on
    to the signature test, ending in the pair or in [NotAuthorized], exactly
    when [is_admin] is true or the user's id is among the project's members;
    when neither holds it raises the same [NotFound].  [is_admin] returns
    whenever [projectmanager] is in neither role list; when it raises, it
    raises [Error] and [authenticate] raises that [Error], whatever the
    project's members. *)
Theorem authenticate_membership_check st access signature prms verb
    server_string path check_type hdrs access_key sep project_id :
  partition_colon access = (access_key, sep, project_id) →
  (get_user_from_access_key drv st access_key = None →
   authenticate drv FLAGS signer st access signature prms verb server_string
     path check_type hdrs = Raise NotFound)
  ∧ (∀ user,
       get_user_from_access_key drv st access_key = Some user →
       get_project drv st
         (if bool_decide (project_id = "") then User.name user
          else project_id) = None →
       authenticate drv FLAGS signer st access signature prms verb
         server_string path check_type hdrs = Raise NotFound)
  ∧ (∀ user project adm,
       get_user_from_access_key drv st access_key = Some user →
       get_project drv st
         (if bool_decide (project_id = "") then User.name user
          else project_id) = Some project →
       is_admin drv FLAGS st (UObj user) = Return adm →
       ((authenticate drv FLAGS signer st access signature prms verb
           server_string path check_type hdrs = Return (user, project)
         ∨ authenticate drv FLAGS signer st access signature prms verb
             server_string path check_type hdrs = Raise NotAuthorized)
        ↔ (truthy adm = true
           ∨ User.id user ∈ Project.member_ids project))
       ∧ (¬ (truthy adm = true
             ∨ User.id user ∈ Project.member_ids project) →
          authenticate drv FLAGS signer st access signature prms verb
            server_string path check_type hdrs = Raise NotFound))
  ∧ (∀ user project e,
       get_user_from_access_key drv st access_key = Some user →
       get_project drv st
         (if bool_decide (project_id = "") then User.name user
          else project_id) = Some project →
       is_admin drv FLAGS st (UObj user) = Raise e →
       e = Error
       ∧ authenticate drv FLAGS signer st access signature prms verb
           server_string path check_type hdrs = Raise Error)
  ∧ ("projectmanager" ∉ superuser_roles FLAGS →
     "projectmanager" ∉ global_roles FLAGS →
     ∀ user, ∃ adm, is_admin drv FLAGS st (UObj user) = Return adm).
Proof.
  intros Hpart. split_and!;
    [| | |
     intros user project e Huser Hproject Hadm;
     pose proof (is_admin_raises_Error _ _ _ Hadm) as ->;
     split; [done|]; unfold authenticate;
     by rewrite Hpart, Huser, Hproject, Hadm
    |intros Hsu Hglobal user; by apply is_admin_returns].
  - intros Huser. unfold authenticate. by rewrite Hpart, Huser.
  - intros user Huser Hproject. unfold authenticate.
    by rewrite Hpart, Huser, Hproject.
  - intros user project adm Huser Hproject Hadm.
    rewrite (authenticate_resolved _ _ _ _ _ _ _ _ _ _ _ _ _ _ _
               Hpart Huser Hproject Hadm).
    destruct (truthy adm); cbn [negb andb].
    + split; [|intros Hn; exfalso; apply Hn; auto].
      split; [auto|intros _].
      repeat case_bool_decide; auto.
    + destruct (decide (User.id user ∈ Project.member_ids project))
        as [Hin|Hin].
      * rewrite (bool_decide_true _ Hin); cbn [negb andb].
        split; [|intros Hn; exfalso; apply Hn; auto].
        split; [auto|intros _].
        repeat case_bool_decide; auto.
      * rewrite (bool_decide_false _ Hin); cbn [negb andb].
        split; [|done]. split; [intros [?|?]; done|].
        intros [?|?]; done.
Qed.

End Authentication.

(** [u1] signs an [ec2] request for its project [t1]: accepted with the right
    signature, [NotAuthorized] with another one. *)
Lemma authenticate_signature_check_witness :
  authenticate MemoryDriver.driver default_flags Sample.signer Sample.store
    "AK1:t1" "SK1|GET|host|/|Action=Run" [("Action", "Run")] "GET" "host"
    "/" "ec2" None = Return (Sample.u1, Sample.t1)
  ∧ authenticate MemoryDriver.driver default_flags Sample.signer Sample.store
      "AK1:t1" "SK1|GET|host|/|Action=Stop" [("Action", "Run")] "GET" "host"
      "/" "ec2" None = Raise NotAuthorized
  ∧ authenticate MemoryDriver.driver default_flags Sample.signer Sample.store
      "AK1:t1" "anything" [("Action", "Run")] "GET" "host"
      "/" "none" None = Return (Sample.u1, Sample.t1).
Proof.
  pose proof (λ signature check_type,
    authenticate_signature_check MemoryDriver.driver default_flags
      Sample.signer Sample.store "AK1:t1" signature [("Action", "Run")]
      "GET" "host" "/" check_type None "AK1" ":" "t1" Sample.u1 Sample.t1
      VNone eq_refl eq_refl eq_refl eq_refl
      (or_intror (list_elem_of_here "u1" []))) as H.
  split_and!.
  - apply (proj1 (proj2 (H "SK1|GET|host|/|Action=Run" "ec2"))).
    by vm_compute.
  - apply (proj1 (H "SK1|GET|host|/|Action=Stop" "ec2")). right. by split.
  - apply (proj2 (proj2 (H "anything" "none"))); discriminate.
Defined.

(** [u1] is a member of [t1] and not of [t2]; [root] is an admin and not a
    member of [t1]. *)
Lemma authenticate_membership_check_witness :
  authenticate MemoryDriver.driver default_flags Sample.signer Sample.store
    "AK1:t2" "" [] "GET" "host" "/" "none" None = Raise NotFound
  ∧ authenticate MemoryDriver.driver default_flags Sample.signer Sample.store
      "nobody" "" [] "GET" "host" "/" "none" None = Raise NotFound
  ∧ (authenticate MemoryDriver.driver default_flags Sample.signer
       Sample.store "AK0:t1" "" [] "GET" "host" "/" "ec2" None
       = Return (Sample.root, Sample.t1)
     ∨ authenticate MemoryDriver.driver default_flags Sample.signer
         Sample.store "AK0:t1" "" [] "GET" "host" "/" "ec2" None
         = Raise NotAuthorized).
Proof.
  split_and!.
  - apply (proj1 (proj2 (proj2 (authenticate_membership_check
             MemoryDriver.driver default_flags Sample.signer Sample.store
             "AK1:t2" "" [] "GET" "host" "/" "none" None "AK1" ":" "t2"
             eq_refl)))
             Sample.u1 Sample.t2 VNone eq_refl eq_refl eq_refl).
    intros [H | H]; [discriminate H|].
    apply list_elem_of_In in H. simpl in H.
    destruct H as [H|[]]; discriminate H.
  - apply (proj1 (authenticate_membership_check MemoryDriver.driver
             default_flags Sample.signer Sample.store "nobody" "" [] "GET"
             "host" "/" "none" None "nobody" "" "" eq_refl)).
    reflexivity.
  - apply (proj1 (proj1 (proj2 (proj2 (authenticate_membership_check
             MemoryDriver.driver default_flags Sample.signer Sample.store
             "AK0:t1" "" [] "GET" "host" "/" "ec2" None "AK0" ":" "t1"
             eq_refl)))
             Sample.root Sample.t1 (VBool true) eq_refl eq_refl eq_refl)).
    by left.
Defined.

(** ** The pool of VPN ports *)

Section VpnPool.
Variable FLAGS : Flags.

Lemma exists_ports_false r ip :
  Redis.exists_ports r ip = false ↔ Redis.smembers r ip = ∅.
Proof.
  unfold Redis.exists_ports. rewrite negb_false_iff.
  apply bool_decide_eq_true.
Qed.

Lemma exists_ports_true r ip :
  Redis.exists_ports r ip = true ↔ Redis.smembers r ip ≠ ∅.
Proof.
  unfold Redis.exists_ports. rewrite negb_true_iff.
  apply bool_decide_eq_false.
Qed.

Lemma smembers_sadd r ip x ip' :
  Redis.smembers (Redis.sadd r ip x) ip' =
    if decide (ip = ip') then {[x]} ∪ Redis.smembers r ip
    else Redis.smembers r ip'.
Proof.
  unfold Redis.smembers, Redis.sadd; simpl.
  rewrite lookup_insert. by case_decide.
Qed.

(** The seeding loop adds the whole list to the set of [ip] and touches
    nothing else. *)
Lemma seed_spec (l : list Z) r ip :
  (∀ ip', Redis.smembers (foldl (λ r i, Redis.sadd r ip i) r l) ip' =
            if decide (ip = ip') then list_to_set l ∪ Redis.smembers r ip
            else Redis.smembers r ip')
  ∧ associations (foldl (λ r i, Redis.sadd r ip i) r l) = associations r
  ∧ models (foldl (λ r i, Redis.sadd r ip i) r l) = models r.
Proof.
  revert r. induction l as [|i l IH]; intros r; simpl.
  - split; [|done]. intros ip'. case_decide; [subst|done].
    by rewrite (left_id_L ∅ (∪)).
  - destruct (IH (Redis.sadd r ip i)) as (Hm & Ha & Hmod).
    split; [|by rewrite Ha, Hmod].
    intros ip'. rewrite Hm, !smembers_sadd.
    case_decide; [|done]. rewrite decide_True by done.
    rewrite (comm_L (∪) {[i]} (list_to_set l)).
    by rewrite <- (assoc_L (∪)).
Qed.

(** [spop] answers nothing for a set without members; otherwise it takes
    out one member of the set and touches nothing else. *)
Lemma spop_spec choice r ip :
  (Redis.smembers r ip = ∅ ∧ Redis.spop choice r ip = (None, r))
  ∨ (∃ member r',
       member ∈ Redis.smembers r ip
       ∧ Redis.spop choice r ip = (Some member, r')
       ∧ (∀ ip', Redis.smembers r' ip' =
                   if decide (ip = ip') then Redis.smembers r ip ∖ {[member]}
                   else Redis.smembers r ip')
       ∧ associations r' = associations r
       ∧ models r' = models r).
Proof.
  unfold Redis.spop.
  destruct (elements (Redis.smembers r ip)) as [|y l] eqn:He.
  - left. split; [|done]. by apply elements_empty_iff, leibniz_equiv in He.
  - right.
    destruct (lookup_lt_is_Some_2 (y :: l)
                (choice `mod` length (y :: l))%nat) as [member Hmember].
    { apply Nat.mod_upper_bound. simpl. lia. }
    rewrite Hmember. eexists _, _. split_and!; [|done| |done|done].
    + apply elem_of_elements. rewrite He.
      by eapply list_elem_of_lookup_2.
    + intros ip'. unfold Redis.smembers at 1; simpl.
      rewrite lookup_insert. by case_decide.
Qed.

(** Every member can be the one taken: the picks range over the whole
    set. *)
Lemma spop_any_member r ip member :
  member ∈ Redis.smembers r ip →
  ∃ choice r', Redis.spop choice r ip = (Some member, r').
Proof.
  intros Hin. apply elem_of_elements, list_elem_of_lookup_1 in Hin
    as [i Hi].
  exists i. unfold Redis.spop.
  rewrite Nat.mod_small by (by eapply lookup_lt_Some).
  rewrite Hi. by eexists.
Qed.

Lemma find_free_port_for_ip_spec choice r ip :
  (Vpn.pool_at_pop FLAGS r ip = ∅
   ∧ Vpn.find_free_port_for_ip FLAGS choice r ip = Raise NoMorePorts)
  ∨ (∃ port r',
       port ∈ Vpn.pool_at_pop FLAGS r ip
       ∧ Vpn.find_free_port_for_ip FLAGS choice r ip = Return (port, r')
       ∧ Redis.smembers r' ip = Vpn.pool_at_pop FLAGS r ip ∖ {[port]}
       ∧ (∀ ip', ip' ≠ ip → Redis.smembers r' ip' = Redis.smembers r ip')
       ∧ associations r' = associations r
       ∧ models r' = models r).
Proof.
  unfold Vpn.find_free_port_for_ip.
  set (seeded := if negb (Redis.exists_ports r ip)
                    && negb (Redis.exists_association r "ip" ip)
                 then foldl (λ r i, Redis.sadd r ip i) r
                        (Vpn.range (vpn_start_port FLAGS)
                           (vpn_end_port FLAGS + 1))
                 else r).
  assert ((∀ ip', Redis.smembers seeded ip' =
             if decide (ip = ip') then Vpn.pool_at_pop FLAGS r ip
             else Redis.smembers r ip')
          ∧ associations seeded = associations r
          ∧ models seeded = models r) as (Hm & Ha & Hmod).
  { unfold seeded, Vpn.pool_at_pop, Vpn.materialized.
    destruct (Redis.exists_ports r ip) eqn:Hp; simpl.
    - split; [|done]. intros ip'. by case_decide; subst.
    - destruct (Redis.exists_association r "ip" ip); simpl.
      + split; [|done]. intros ip'. by case_decide; subst.
      + destruct (seed_spec
                    (Vpn.range (vpn_start_port FLAGS)
                       (vpn_end_port FLAGS + 1)) r ip) as (Hm & Ha & Hmod).
        split; [|done]. intros ip'. rewrite Hm.
        case_decide; [|done]. apply exists_ports_false in Hp.
        by rewrite Hp, (right_id_L ∅ (∪)). }
  pose proof (Hm ip) as Hip. rewrite decide_True in Hip by done.
  destruct (spop_spec choice seeded ip)
    as [[Hempty ->] | (port & r' & Hin & -> & Hm' & Ha' & Hmod')].
  - left. split; [|done]. by rewrite <- Hip.
  - right. exists port, r'. split_and!.
    + by rewrite <- Hip.
    + done.
    + rewrite Hm', decide_True by done. by rewrite Hip.
    + intros ip' Hne. rewrite Hm', decide_False by done.
      rewrite Hm. by rewrite decide_False.
    + congruence.
    + congruence.
Qed.

(** The round trip on the set alone: a port found on a seeded pool and
    added back leaves as many free ports as before. *)
Lemma find_free_port_for_ip_sadd_round_trip choice r ip port r' :
  Vpn.materialized r ip = true →
  Vpn.find_free_port_for_ip FLAGS choice r ip = Return (port, r') →
  port ∈ Redis.smembers r ip
  ∧ Vpn.num_ports_for_ip (Redis.sadd r' ip port) ip
    = Vpn.num_ports_for_ip r ip.
Proof.
  intros Hmat Hfound.
  destruct (find_free_port_for_ip_spec choice r ip)
    as [[_ Hraise] | (port' & r1 & Hin & Hret & Hm & _)]; [congruence|].
  rewrite Hfound in Hret. injection Hret as <- <-.
  unfold Vpn.pool_at_pop in Hin, Hm. rewrite Hmat in Hin, Hm.
  split; [done|]. unfold Vpn.num_ports_for_ip, Redis.scard.
  rewrite smembers_sadd, decide_True, Hm by done.
  f_equal. symmetry. apply union_difference_singleton_L, Hin.
Qed.

Lemma materialized_of_members r ip :
  Redis.smembers r ip ≠ ∅ → Vpn.materialized r ip = true.
Proof.
  intros H. unfold Vpn.materialized.
  by rewrite (proj2 (exists_ports_true r ip) H).
Qed.

(** [save] and the models' [destroy] leave the port sets alone; [save]
    leaves the ip with an association. *)
Lemma smembers_save r vpn ip :
  Redis.smembers (Vpn.save r vpn) ip = Redis.smembers r ip.
Proof. reflexivity. Qed.

Lemma materialized_save r vpn :
  Vpn.materialized (Vpn.save r vpn) (VpnData.ip vpn) = true.
Proof.
  unfold Vpn.materialized, Redis.exists_association, Vpn.save; simpl.
  rewrite lookup_insert_eq; simpl.
  rewrite bool_decide_false, orb_true_r; [done|].
  intros H. apply (not_elem_of_empty (C := gset string)
                     (VpnData.project_id vpn)).
  rewrite <- H. apply elem_of_union_l. by apply elem_of_singleton.
Qed.

Lemma smembers_destroy r vpn ip :
  Redis.smembers (Vpn.destroy r vpn) ip =
    if decide (VpnData.ip vpn = ip)
    then {[VpnData.port vpn]} ∪ Redis.smembers r (VpnData.ip vpn)
    else Redis.smembers r ip.
Proof.
  unfold Vpn.destroy.
  change (Redis.smembers
            (Redis.sadd
               (BasicModel.unassociate_with r (VpnData.project_id vpn) "ip"
                  (VpnData.ip vpn)) (VpnData.ip vpn) (VpnData.port vpn)) ip
          = if decide (VpnData.ip vpn = ip)
            then {[VpnData.port vpn]} ∪ Redis.smembers r (VpnData.ip vpn)
            else Redis.smembers r ip).
  by rewrite smembers_sadd.
Qed.

(** [create] pops a port of the pool, or raises when the pool is empty. *)
Lemma create_spec choice r project_id :
  (Vpn.pool_at_pop FLAGS r (vpn_ip FLAGS) = ∅
   ∧ Vpn.create FLAGS choice r project_id = Raise NoMorePorts)
  ∨ (∃ port r',
       port ∈ Vpn.pool_at_pop FLAGS r (vpn_ip FLAGS)
       ∧ Vpn.create FLAGS choice r project_id =
           Return (VpnData.mk project_id (vpn_ip FLAGS) port, r')
       ∧ Redis.smembers r' (vpn_ip FLAGS) =
           Vpn.pool_at_pop FLAGS r (vpn_ip FLAGS) ∖ {[port]}
       ∧ Vpn.materialized r' (vpn_ip FLAGS) = true).
Proof.
  unfold Vpn.create.
  destruct (find_free_port_for_ip_spec choice r (vpn_ip FLAGS))
    as [[Hempty ->] | (port & r1 & Hin & -> & Hm & _)].
  - by left.
  - right. simpl. eexists port, _. split_and!; [done|done| |].
    + by rewrite smembers_save.
    + apply (materialized_save r1
               (VpnData.mk project_id (vpn_ip FLAGS) port)).
Qed.

Lemma create_inv choice r project_id vpn r' :
  Vpn.create FLAGS choice r project_id = Return (vpn, r') →
  VpnData.ip vpn = vpn_ip FLAGS
  ∧ VpnData.port vpn ∈ Vpn.pool_at_pop FLAGS r (vpn_ip FLAGS)
  ∧ Redis.smembers r' (vpn_ip FLAGS) =
      Vpn.pool_at_pop FLAGS r (vpn_ip FLAGS) ∖ {[VpnData.port vpn]}
  ∧ Vpn.materialized r' (vpn_ip FLAGS) = true.
Proof.
  destruct (create_spec choice r project_id)
    as [[_ ->] | (port & r1 & Hin & -> & Hm & Hmat)]; [discriminate|].
  by intros [= <- <-].
Qed.

Lemma pool_at_pop_materialized r ip :
  Vpn.materialized r ip = true →
  Vpn.pool_at_pop FLAGS r ip = Redis.smembers r ip.
Proof. unfold Vpn.pool_at_pop. by intros ->. Qed.

(** [create] then [destroy], again and again, on a pool with a free port:
    every round succeeds, hands out a port of the pool and leaves the pool
    as it was. *)
Lemma create_destroy_loop_invariant choices project_id :
  ∀ r,
    Redis.smembers r (vpn_ip FLAGS) ≠ ∅ →
    ∃ handed r',
      Vpn.create_destroy_loop FLAGS choices r project_id
        = Return (handed, r')
      ∧ length handed = length choices
      ∧ Forall (λ port, port ∈ Redis.smembers r (vpn_ip FLAGS)) handed
      ∧ Redis.smembers r' (vpn_ip FLAGS) = Redis.smembers r (vpn_ip FLAGS).
Proof.
  induction choices as [|choice rest IH]; intros r Hfree; simpl.
  - by exists [], r.
  - pose proof (materialized_of_members _ _ Hfree) as Hmat.
    destruct (create_spec choice r project_id)
      as [[Hempty _] | (port & r1 & Hin & -> & Hm & _)].
    { by rewrite pool_at_pop_materialized in Hempty. }
    rewrite pool_at_pop_materialized in Hin, Hm by done.
    simpl.
    set (vpn := VpnData.mk project_id (vpn_ip FLAGS) port).
    assert (Redis.smembers (Vpn.destroy r1 vpn) (vpn_ip FLAGS)
            = Redis.smembers r (vpn_ip FLAGS)) as Hback.
    { rewrite smembers_destroy. simpl. rewrite decide_True by done.
      rewrite Hm. symmetry. apply union_difference_singleton_L, Hin. }
    destruct (IH (Vpn.destroy r1 vpn)) as (handed & r' & -> & Hlen & Hall & Hm').
    { by rewrite Hback. }
    simpl. exists (port :: handed), r'. split_and!; [done|simpl; lia| |].
    + constructor; [done|]. by rewrite Hback in Hall.
    + by rewrite Hm', Hback.
Qed.

(** C6.  On an ip whose pool has been seeded: a [create] hands out a port
    that was free and is free no longer, and the [destroy] of the object it
    returned brings [num_ports_for_ip] back to its value before the
    [create]; as many rounds of [create] then [destroy] as the pool has
    free ports never raise [NoMorePorts], hand out ports of the pool only
    and leave the pool as it was; and two [create]s in a row, neither yet
    destroyed, hold different ports. *)
Theorem create_destroy_round_trip r :
  Vpn.materialized r (vpn_ip FLAGS) = true →
  (∀ choice project_id vpn r',
     Vpn.create FLAGS choice r project_id = Return (vpn, r') →
     VpnData.port vpn ∈ Redis.smembers r (vpn_ip FLAGS)
     ∧ (VpnData.port vpn ∉ Redis.smembers r' (vpn_ip FLAGS))
     ∧ Vpn.num_ports_for_ip (Vpn.destroy r' vpn) (vpn_ip FLAGS)
       = Vpn.num_ports_for_ip r (vpn_ip FLAGS))
  ∧ (∀ choices project_id,
       length choices = Vpn.num_ports_for_ip r (vpn_ip FLAGS) →
       ∃ handed r',
         Vpn.create_destroy_loop FLAGS choices r project_id
           = Return (handed, r')
         ∧ length handed = Vpn.num_ports_for_ip r (vpn_ip FLAGS)
         ∧ Forall (λ port, port ∈ Redis.smembers r (vpn_ip FLAGS)) handed
         ∧ Redis.smembers r' (vpn_ip FLAGS) = Redis.smembers r (vpn_ip FLAGS)
         ∧ Vpn.num_ports_for_ip r' (vpn_ip FLAGS)
           = Vpn.num_ports_for_ip r (vpn_ip FLAGS))
  ∧ (∀ choice1 choice2 project1 project2 vpn1 vpn2 r1 r2,
       Vpn.create FLAGS choice1 r project1 = Return (vpn1, r1) →
       Vpn.create FLAGS choice2 r1 project2 = Return (vpn2, r2) →
       VpnData.port vpn1 ≠ VpnData.port vpn2).
Proof.
  intros Hmat. split_and!.
  - intros choice project_id vpn r' Hcreate.
    apply create_inv in Hcreate as (Hip & Hin & Hm & _).
    rewrite pool_at_pop_materialized in Hin, Hm by done.
    split_and!; [done| |].
    + rewrite Hm. intros [_ Hnot]%elem_of_difference.
      by apply Hnot, elem_of_singleton.
    + unfold Vpn.num_ports_for_ip, Redis.scard.
      rewrite smembers_destroy, Hip, decide_True by done.
      rewrite Hm. f_equal. symmetry.
      apply union_difference_singleton_L, Hin.
  - intros choices project_id Hlen.
    unfold Vpn.num_ports_for_ip, Redis.scard in *.
    destruct (decide (Redis.smembers r (vpn_ip FLAGS) = ∅)) as [Hempty|Hfree].
    + assert (choices = []) as ->.
      { destruct choices; [done|].
        rewrite Hempty, size_empty in Hlen. discriminate. }
      exists [], r. by rewrite Hempty, size_empty.
    + destruct (create_destroy_loop_invariant choices project_id r Hfree)
        as (handed & r' & Hloop & Hlen' & Hall & Hm).
      exists handed, r'.
      split_and!; [done|congruence|done|done|by rewrite Hm].
  - intros choice1 choice2 project1 project2 vpn1 vpn2 r1 r2 H1 H2.
    apply create_inv in H1 as (_ & _ & Hm1 & Hmat1).
    apply create_inv in H2 as (_ & Hin2 & _).
    rewrite pool_at_pop_materialized in Hin2 by done.
    rewrite Hm1 in Hin2. apply elem_of_difference in Hin2 as [_ Hne].
    intros Heq. apply Hne. rewrite Heq. by apply elem_of_singleton.
Qed.

(** On first use the pool is the configured range. *)
Lemma pool_at_pop_first_use r ip :
  Redis.exists_ports r ip = false →
  Redis.exists_association r "ip" ip = false →
  ∀ i, i ∈ Vpn.pool_at_pop FLAGS r ip
       ↔ (vpn_start_port FLAGS ≤ i ≤ vpn_end_port FLAGS)%Z.
Proof.
  intros Hp Ha i. unfold Vpn.pool_at_pop, Vpn.materialized.
  rewrite Hp, Ha; simpl. rewrite elem_of_list_to_set.
  unfold Vpn.range. rewrite elem_of_seqZ. lia.
Qed.

(** C7.  On the first use of an ip, when neither its port set nor its
    association set exists, [find_free_port_for_ip] seeds the set with
    every integer from [vpn_start_port] to [vpn_end_port]: the port it
    returns together with the ports it leaves are exactly that range, and
    it returns a port when the range has one.  With both flags at 1000 the
    first [create] returns port 1000 and a second [create] raises
    [NoMorePorts]; and [find_free_port_for_ip] itself raises [NoMorePorts]
    on a drained set whenever a [Vpn] is associated with the ip, as [create]
    leaves it. *)
Theorem first_use_seeds_configured_range choice r ip :
  Redis.exists_ports r ip = false →
  Redis.exists_association r "ip" ip = false →
  (∀ port r',
     Vpn.find_free_port_for_ip FLAGS choice r ip = Return (port, r') →
     ∀ i, i ∈ ({[port]} ∪ Redis.smembers r' ip : gset Z)
          ↔ (vpn_start_port FLAGS ≤ i ≤ vpn_end_port FLAGS)%Z)
  ∧ ((vpn_start_port FLAGS ≤ vpn_end_port FLAGS)%Z →
     ∃ port r',
       Vpn.find_free_port_for_ip FLAGS choice r ip = Return (port, r'))
  ∧ (vpn_start_port FLAGS = 1000%Z → vpn_end_port FLAGS = 1000%Z →
     ip = vpn_ip FLAGS →
     ∀ project1 project2 choice2,
       ∃ r1,
         Vpn.create FLAGS choice r project1
           = Return (VpnData.mk project1 (vpn_ip FLAGS) 1000, r1)
         ∧ Vpn.create FLAGS choice2 r1 project2 = Raise NoMorePorts)
  ∧ (∀ choice2 r1,
       Redis.exists_association r1 "ip" ip = true →
       Redis.smembers r1 ip = ∅ →
       Vpn.find_free_port_for_ip FLAGS choice2 r1 ip = Raise NoMorePorts).
Proof.
  intros Hp Ha. pose proof (pool_at_pop_first_use r ip Hp Ha) as Hpool.
  split_and!;
    [| | |
     intros choice2 r1 Hassoc Hdrained;
     destruct (find_free_port_for_ip_spec choice2 r1 ip)
       as [[_ Hraise] | (port & r2 & Hin & _)]; [done|];
     unfold Vpn.pool_at_pop, Vpn.materialized in Hin;
     rewrite Hassoc, orb_true_r, Hdrained in Hin;
     by apply not_elem_of_empty in Hin].
  - intros port r' Hfound i.
    destruct (find_free_port_for_ip_spec choice r ip)
      as [[_ Hraise] | (port' & r1 & Hin & Hret & Hm & _)]; [congruence|].
    rewrite Hfound in Hret. injection Hret as <- <-.
    rewrite Hm, <- union_difference_singleton_L by done. apply Hpool.
  - intros Hrange.
    destruct (find_free_port_for_ip_spec choice r ip)
      as [[Hempty _] | (port & r1 & _ & Hret & _)]; [|by eauto].
    exfalso. apply (not_elem_of_empty (C := gset Z) (vpn_start_port FLAGS)).
    rewrite <- Hempty. apply Hpool. lia.
  - intros Hstart Hend -> project1 project2 choice2.
    destruct (create_spec choice r project1)
      as [[Hempty _] | (port & r1 & Hin & Hret & Hm & Hmat)].
    { exfalso. apply (not_elem_of_empty (C := gset Z) 1000%Z).
      rewrite <- Hempty. apply Hpool. lia. }
    assert (port = 1000%Z) as -> by (apply Hpool in Hin; lia).
    exists r1. split; [done|].
    destruct (create_spec choice2 r1 project2)
      as [[_ Hraise] | (port & r2 & Hin2 & _)]; [done|].
    rewrite pool_at_pop_materialized, Hm in Hin2 by done.
    apply elem_of_difference in Hin2 as [Hin2 Hne].
    apply Hpool in Hin2. exfalso. apply Hne, elem_of_singleton. lia.
Qed.

End VpnPool.

(** Three rounds on the sample pool of three ports. *)
Lemma create_destroy_round_trip_witness :
  ∃ handed r',
    Vpn.create_destroy_loop Sample.three_ports [0; 1; 2]%nat Sample.seeded
      "t1" = Return (handed, r')
    ∧ length handed = Vpn.num_ports_for_ip Sample.seeded "127.0.0.1"
    ∧ Forall (λ port, port ∈ Redis.smembers Sample.seeded "127.0.0.1") handed
    ∧ Redis.smembers r' "127.0.0.1" = Redis.smembers Sample.seeded "127.0.0.1"
    ∧ Vpn.num_ports_for_ip r' "127.0.0.1"
      = Vpn.num_ports_for_ip Sample.seeded "127.0.0.1".
Proof.
  apply (proj1 (proj2 (create_destroy_round_trip Sample.three_ports
                         Sample.seeded ltac:(by vm_compute)))
           [0; 1; 2]%nat "t1").
  by vm_compute.
Defined.

(** One port: the first [create] takes it, the second finds none. *)
Lemma first_use_seeds_configured_range_witness :
  ∃ r1,
    Vpn.create Sample.one_port 0 empty_datastore "t1"
      = Return (VpnData.mk "t1" "127.0.0.1" 1000, r1)
    ∧ Vpn.create Sample.one_port 7 r1 "t2" = Raise NoMorePorts.
Proof.
  apply (proj1 (proj2 (proj2 (first_use_seeds_configured_range
                                Sample.one_port 0 empty_datastore "127.0.0.1"
                                ltac:(by vm_compute) ltac:(by vm_compute))))
           eq_refl eq_refl eq_refl "t1" "t2" 7%nat).
Defined.

(** What keeps a drained pool from being seeded again is the association
    that [create] saves: in redis a set without members no longer exists, so
    [find_free_port_for_ip] called twice on its own, with nothing saved in
    between, seeds the single port twice. *)
Lemma find_free_port_for_ip_unrecorded_reseeds :
  (do first <- Vpn.find_free_port_for_ip Sample.one_port 0 empty_datastore
                 "127.0.0.1";
   do second <- Vpn.find_free_port_for_ip Sample.one_port 0 first.2
                  "127.0.0.1";
   Return (first.1, second.1)) = Return (1000%Z, 1000%Z).
Proof. by vm_compute. Qed.

(** ** Credentials *)

Section Credentials.
Context {S : Type}.
Variable drv : Driver S.
Variable FLAGS : Flags.
Variable issuer : Issuer.

(** Without a [Vpn] for the project, [get_credentials] given a [Project]
    object raises [Error]. *)
Lemma get_credentials_no_vpn_object st r user u (p : Project.t) :
  user_object drv st user = Return u →
  Vpn.lookup r (Project.id p) = None →
  get_credentials drv FLAGS issuer st r user (PObj p) = Raise Error.
Proof.
  intros Hu Hvpn. unfold get_credentials.
  rewrite (bind_Return _ _ _ Hu). simpl.
  destruct (generate_x509_cert issuer _ _). by rewrite Hvpn.
Qed.

(** Given a project id, or no project, the message of that [Error] cannot
    be built and [AttributeError] is raised in its place. *)
Lemma get_credentials_no_vpn_id st r user u pid :
  user_object drv st user = Return u →
  Vpn.lookup r pid = None →
  get_credentials drv FLAGS issuer st r user (PId pid)
    = Raise AttributeError.
Proof.
  intros Hu Hvpn. unfold get_credentials.
  rewrite (bind_Return _ _ _ Hu). simpl.
  destruct (generate_x509_cert issuer _ _). by rewrite Hvpn.
Qed.

Lemma get_credentials_no_vpn_default st r user u :
  user_object drv st user = Return u →
  Vpn.lookup r (User.id u) = None →
  get_credentials drv FLAGS issuer st r user PNone = Raise AttributeError.
Proof.
  intros Hu Hvpn. unfold get_credentials.
  rewrite (bind_Return _ _ _ Hu). simpl.
  destruct (generate_x509_cert issuer _ _). by rewrite Hvpn.
Qed.

(** In no case is a zip returned. *)
Lemma get_credentials_no_vpn_no_zip st r user project zip :
  (∀ pid, Vpn.lookup r pid = None) →
  get_credentials drv FLAGS issuer st r user project ≠ Return zip.
Proof.
  intros Hvpn. unfold get_credentials.
  destruct (user_object drv st user) as [u|e]; simpl; [|done].
  destruct (generate_x509_cert issuer _ _). rewrite Hvpn.
  by destruct project.
Qed.

End Credentials.

(** C9.  The code at the input of the defect: with no [Vpn] saved,
    [get_credentials] for [u1] raises [AttributeError] when the project is
    left out or named by its id, and [Error] only when it is given as a
    [Project] object. *)
Theorem get_credentials_without_vpn :
  get_credentials MemoryDriver.driver default_flags Sample.issuer
    Sample.store empty_datastore (UObj Sample.u1) PNone
    = Raise AttributeError
  ∧ get_credentials MemoryDriver.driver default_flags Sample.issuer
      Sample.store empty_datastore (UObj Sample.u1) (PId "t1")
      = Raise AttributeError
  ∧ get_credentials MemoryDriver.driver default_flags Sample.issuer
      Sample.store empty_datastore (UObj Sample.u1) (PObj Sample.t1)
      = Raise Error.
Proof. split_and!; by vm_compute. Qed.

(** * Further properties *)

(** ** Roles across scopes *)

Section RoleScopes.
Context {S : Type}.
Variable drv : Driver S.
Variable FLAGS : Flags.

(** X1.  A role other than [projectmanager] that [has_role] grants in some
    project is also granted without a project: no project check succeeds
    that the global check refuses. *)
Theorem has_role_in_project_implies_global st user role project :
  role ≠ "projectmanager" →
  has_role drv FLAGS st user role project = Return true →
  has_role drv FLAGS st user role PNone = Return true.
Proof.
  intros Hrole. rewrite !(has_role_ordinary drv FLAGS _ _ _ _ Hrole).
  destruct (drv_has_role drv st (User_safe_id user) role None); [done|].
  by intros [=].
Qed.

(** X2.  For a role of [FLAGS.global_roles] the project makes no
    difference: [has_role] answers as it does without a project, whatever
    the grants in the project. *)
Theorem has_role_global_role_ignores_project st user role project :
  role ≠ "projectmanager" →
  role ∈ global_roles FLAGS →
  has_role drv FLAGS st user role project
  = has_role drv FLAGS st user role PNone.
Proof.
  intros Hrole Hglobal. rewrite !(has_role_ordinary drv FLAGS _ _ _ _ Hrole).
  rewrite (bool_decide_true _ Hglobal), orb_true_r. simpl.
  by destruct (drv_has_role drv st (User_safe_id user) role None).
Qed.

(** The loop over a list of roles without [projectmanager] answers [True]
    exactly when the driver has a global grant of one of them. *)
Lemma first_role_True_iff st u roles :
  "projectmanager" ∉ roles →
  first_role drv FLAGS st u roles = Return (VBool true)
  ↔ ∃ role : string, role ∈ roles
            ∧ drv_has_role drv st (User.id u) role None = true.
Proof.
  induction roles as [|role rest IH]; intros Hnot.
  - split; [discriminate|]. intros (role & Hin & _). by inversion Hin.
  - apply not_elem_of_cons in Hnot as [Hne Hrest].
    cbn [first_role].
    rewrite (has_role_ordinary drv FLAGS st (UObj u) role PNone
               (not_eq_sym Hne)).
    cbn [User_safe_id project_given negb orb].
    destruct (drv_has_role drv st (User.id u) role None) eqn:Hheld;
      cbn [negb bind].
    + split; [intros _|done]. exists role. split; [left|done].
    + rewrite (IH Hrest). split.
      * intros (role' & Hin & Hrole'). exists role'. split; [by right|done].
      * intros (role' & Hin & Hrole'). exists role'. split; [|done].
        apply elem_of_cons in Hin as [->|Hin]; [congruence|done].
Qed.

Lemma first_role_True_or_None st u roles :
  "projectmanager" ∉ roles →
  first_role drv FLAGS st u roles = Return (VBool true)
  ∨ first_role drv FLAGS st u roles = Return VNone.
Proof.
  intros Hnot. destruct (first_role_returns drv FLAGS st u roles Hnot)
    as [[[|]|] Hv]; [by left | | by right].
  by apply first_role_never_False in Hv.
Qed.

(** X3.  With no [projectmanager] among [FLAGS.superuser_roles],
    [is_superuser] returns [True] exactly for a user with the admin flag or
    with a global grant of one of those roles, and [None] for every other
    user. *)
Theorem is_superuser_True_iff st (u : User.t) :
  "projectmanager" ∉ superuser_roles FLAGS →
  (is_superuser drv FLAGS st (UObj u) = Return (VBool true)
   ↔ User.admin u = true
     ∨ ∃ role : string, role ∈ superuser_roles FLAGS
               ∧ drv_has_role drv st (User.id u) role None = true)
  ∧ (is_superuser drv FLAGS st (UObj u) = Return (VBool true)
     ∨ is_superuser drv FLAGS st (UObj u) = Return VNone).
Proof.
  intros Hnot. unfold is_superuser. cbn [user_object bind].
  destruct (User.admin u).
  - split; [|by left]. split; [by left|done].
  - split; [|by apply first_role_True_or_None].
    rewrite (first_role_True_iff _ _ _ Hnot).
    split; [by right | by intros [?|?]].
Qed.

(** X4.  With no [projectmanager] in either list, [is_admin] returns
    [True] exactly for a user with the admin flag or with a global grant of
    a role of [FLAGS.superuser_roles] or [FLAGS.global_roles], and [None]
    for every other user. *)
Theorem is_admin_True_iff st (u : User.t) :
  "projectmanager" ∉ superuser_roles FLAGS →
  "projectmanager" ∉ global_roles FLAGS →
  (is_admin drv FLAGS st (UObj u) = Return (VBool true)
   ↔ User.admin u = true
     ∨ ∃ role : string,
         role ∈ (superuser_roles FLAGS ++ global_roles FLAGS)%list
         ∧ drv_has_role drv st (User.id u) role None = true)
  ∧ (is_admin drv FLAGS st (UObj u) = Return (VBool true)
     ∨ is_admin drv FLAGS st (UObj u) = Return VNone).
Proof.
  intros Hsu Hglobal. unfold is_admin, is_superuser. cbn [user_object bind].
  destruct (User.admin u); cbn [bind truthy].
  { split; [|by left]. split; [by left|done]. }
  destruct (first_role_True_or_None st u _ Hsu) as [Hfirst|Hfirst].
  - rewrite Hfirst. cbn [bind truthy]. split; [|by left].
    split; [intros _|done]. right.
    apply (first_role_True_iff _ _ _ Hsu) in Hfirst as (role & Hin & Hheld).
    exists role. split; [|done]. apply elem_of_app. by left.
  - pose proof Hfirst as Hnone. rewrite Hfirst. cbn [bind truthy].
    split; [|by apply first_role_True_or_None].
    rewrite (first_role_True_iff _ _ _ Hglobal). split.
    + intros (role & Hin & Hheld). right. exists role.
      split; [|done]. apply elem_of_app. by right.
    + intros [?|(role & Hin & Hheld)]; [done|].
      apply elem_of_app in Hin as [Hin|Hin]; [|by exists role].
      assert (first_role drv FLAGS st u (superuser_roles FLAGS)
              = Return (VBool true)) as Htrue
        by (apply (first_role_True_iff _ _ _ Hsu); by exists role).
      congruence.
Qed.

(** X5.  Whoever [is_superuser] accepts, [is_admin] accepts, for a [User]
    object or a uid and for every configuration. *)
Theorem is_superuser_implies_is_admin st user :
  is_superuser drv FLAGS st user = Return (VBool true) →
  is_admin drv FLAGS st user = Return (VBool true).
Proof.
  unfold is_admin. intros Hsu.
  destruct (user_object drv st user) as [u|e] eqn:Hu;
    [|by unfold is_superuser in Hsu; rewrite Hu in Hsu].
  cbn [bind].
  assert (is_superuser drv FLAGS st (UObj u) = Return (VBool true)) as ->.
  { unfold is_superuser in *. by rewrite Hu in Hsu. }
  done.
Qed.

End RoleScopes.

(** ** Objects, ids and unknown ids *)

Section ObjectsOrIds.
Context {S : Type}.
Variable drv : Driver S.
Variable FLAGS : Flags.
Variable issuer : Issuer.

(** X6.  "Methods accept objects or ids": when the driver finds the user
    and the project under their ids, every check answers for the id as it
    does for the object; for [has_role] this needs the project id not to be
    the empty string, which [not project] takes for no project. *)
Theorem checks_accept_objects_or_ids st (u : User.t) (p : Project.t)
    user role project :
  drv_get_user drv st (User.id u) = Some u →
  drv_get_project drv st (Project.id p) = Some p →
  is_superuser drv FLAGS st (UId (User.id u))
    = is_superuser drv FLAGS st (UObj u)
  ∧ is_admin drv FLAGS st (UId (User.id u))
    = is_admin drv FLAGS st (UObj u)
  ∧ has_role drv FLAGS st (UId (User.id u)) role project
    = has_role drv FLAGS st (UObj u) role project
  ∧ is_project_manager drv st user (PId (Project.id p))
    = is_project_manager drv st user (PObj p)
  ∧ is_project_member drv st user (PId (Project.id p))
    = is_project_member drv st user (PObj p)
  ∧ (Project.id p ≠ "" →
     has_role drv FLAGS st user role (PId (Project.id p))
     = has_role drv FLAGS st user role (PObj p)).
Proof.
  intros Hu Hp.
  assert (is_project_manager drv st user (PId (Project.id p))
          = is_project_manager drv st user (PObj p)) as Hmanager.
  { unfold is_project_manager, project_object, get_project.
    by rewrite Hp. }
  split_and!; [| |done|done| |].
  - unfold is_superuser, user_object, get_user. by rewrite Hu.
  - unfold is_admin, user_object, get_user. by rewrite Hu.
  - unfold is_project_member, project_object, get_project. by rewrite Hp.
  - intros Hid. unfold has_role. rewrite Hmanager.
    cbn [project_given Project_safe_id].
    by rewrite (bool_decide_false _ Hid).
Qed.

(** X7.  A uid or project id that the driver does not know makes the
    checks raise [AttributeError], the attribute access on the [None] that
    the lookup left; none of them answers false or raises [NotFound]. *)
Theorem checks_raise_on_unknown_ids st r uid pid user project :
  (drv_get_user drv st uid = None →
   is_superuser drv FLAGS st (UId uid) = Raise AttributeError
   ∧ is_admin drv FLAGS st (UId uid) = Raise AttributeError
   ∧ get_credentials drv FLAGS issuer st r (UId uid) project
     = Raise AttributeError)
  ∧ (drv_get_project drv st pid = None →
     is_project_manager drv st user (PId pid) = Raise AttributeError
     ∧ is_project_member drv st user (PId pid) = Raise AttributeError
     ∧ (pid ≠ "" →
        has_role drv FLAGS st user "projectmanager" (PId pid)
        = Raise AttributeError)).
Proof.
  split.
  - intros Hu.
    unfold is_superuser, is_admin, get_credentials, user_object, get_user.
    by rewrite Hu.
  - intros Hp.
    assert (is_project_manager drv st user (PId pid) = Raise AttributeError)
      as Hmanager.
    { unfold is_project_manager, project_object, get_project.
      by rewrite Hp. }
    split_and!; [done| |].
    + unfold is_project_member, project_object, get_project. by rewrite Hp.
    + intros Hpid. unfold has_role. rewrite Hmanager.
      cbn [project_given]. by rewrite (bool_decide_false _ Hpid).
Qed.

End ObjectsOrIds.

(** ** Granting and revoking *)

Section Grants.
Context {S : Type}.
Variable drv : Driver S.
Variable FLAGS : Flags.
Hypothesis laws : grant_laws drv.

(** X8.  Granting a role in a project to a user who lacks it globally
    changes no answer of [has_role]: the role is still refused in that
    project.  Once the global grant is added as well, the role is held in
    the project. *)
Theorem add_role_in_project_needs_global st user role project st1 st2 :
  role ≠ "projectmanager" →
  role ∉ global_roles FLAGS →
  project_given project = true →
  drv_has_role drv st (User_safe_id user) role None = false →
  add_role drv st user role project = Return st1 →
  add_role drv st1 user role PNone = Return st2 →
  has_role drv FLAGS st1 user role project = Return false
  ∧ has_role drv FLAGS st2 user role project = Return true.
Proof.
  intros Hrole Hlocal Hgiven Hglobal [= <-] [= <-].
  assert (Project_safe_id project ≠ None) as Hscope
    by (by destruct project).
  rewrite !(has_role_ordinary drv FLAGS _ _ _ _ Hrole), Hgiven.
  rewrite (bool_decide_false _ Hlocal). cbn [negb orb Project_safe_id].
  rewrite (has_role_add_ne drv laws) by congruence.
  rewrite Hglobal. cbn [negb]. split; [done|].
  rewrite (has_role_add_eq drv laws). cbn [negb].
  rewrite (has_role_add_ne drv laws) by congruence.
  by rewrite (has_role_add_eq drv laws).
Qed.

(** X9.  Removing the global grant of a role takes the role away in every
    project at once, although the grants in the projects stay in the
    driver. *)
Theorem remove_global_role_revokes_everywhere st user role st' :
  role ≠ "projectmanager" →
  remove_role drv st user role PNone = Return st' →
  (∀ project, has_role drv FLAGS st' user role project = Return false)
  ∧ (∀ pid, drv_has_role drv st' (User_safe_id user) role (Some pid)
            = drv_has_role drv st (User_safe_id user) role (Some pid)).
Proof.
  intros Hrole [= <-]. split.
  - intros project. rewrite (has_role_ordinary drv FLAGS _ _ _ _ Hrole).
    cbn [Project_safe_id]. by rewrite (has_role_remove_eq drv laws).
  - intros pid. cbn [Project_safe_id].
    by rewrite (has_role_remove_ne drv laws).
Qed.

End Grants.

(** ** Authentication, further *)

Section AuthenticationMore.
Context {S : Type}.
Variable drv : Driver S.
Variable FLAGS : Flags.
Variable signer : Signer.

(** [partition_colon] on a string without a colon, and on a string whose
    first colon is known. *)
Lemma partition_colon_without_colon s :
  ":"%char ∉ String.list_ascii_of_string s →
  partition_colon s = (s, "", "").
Proof.
  induction s as [|c s IH]; [done|]. cbn [String.list_ascii_of_string].
  intros [Hc Hs]%not_elem_of_cons. cbn [partition_colon].
  rewrite bool_decide_false by congruence. by rewrite (IH Hs).
Qed.

Lemma partition_colon_at_first_colon s after :
  ":"%char ∉ String.list_ascii_of_string s →
  partition_colon (s +:+ ":" +:+ after) = (s, ":", after).
Proof.
  induction s as [|c s IH]; [done|]. cbn [String.list_ascii_of_string].
  intros [Hc Hs]%not_elem_of_cons.
  change (String c s +:+ ":" +:+ after)
    with (String c (s +:+ ":" +:+ after)).
  cbn [partition_colon].
  rewrite bool_decide_false by congruence. by rewrite (IH Hs).
Qed.

(** X10.  An access string without a project part, with or without the
    colon, authenticates to the project named like the user: for an access
    key without a colon, [key], [key:] and [key:<user name>] give the same
    result. *)
Theorem authenticate_defaults_to_user_name st access_key user signature
    prms verb server_string path check_type hdrs :
  ":"%char ∉ String.list_ascii_of_string access_key →
  get_user_from_access_key drv st access_key = Some user →
  authenticate drv FLAGS signer st access_key signature prms verb
    server_string path check_type hdrs
  = authenticate drv FLAGS signer st (access_key +:+ ":" +:+ User.name user)
      signature prms verb server_string path check_type hdrs
  ∧ authenticate drv FLAGS signer st (access_key +:+ ":" +:+ "") signature
      prms verb server_string path check_type hdrs
    = authenticate drv FLAGS signer st
        (access_key +:+ ":" +:+ User.name user)
        signature prms verb server_string path check_type hdrs.
Proof.
  intros Hkey Huser. unfold authenticate.
  rewrite (partition_colon_without_colon _ Hkey),
    !(partition_colon_at_first_colon _ _ Hkey), Huser.
  change (bool_decide ("" = "")) with true. cbn iota.
  by destruct (bool_decide (User.name user = "")).
Qed.

(** X11.  Whenever [authenticate] returns a pair, the user is the one the
    driver finds for the access key and the project the one it finds for
    the project id; [is_admin] holds for the user or the user's id is among
    the project's members; and with check type [s3] or [ec2] the signature
    equals the one computed from the user's secret. *)
Theorem authenticate_accepts_only st access signature prms verb
    server_string path check_type hdrs user project :
  authenticate drv FLAGS signer st access signature prms verb server_string
    path check_type hdrs = Return (user, project) →
  get_user_from_access_key drv st (partition_colon access).1.1 = Some user
  ∧ get_project drv st
      (if bool_decide ((partition_colon access).2 = "") then User.name user
       else (partition_colon access).2) = Some project
  ∧ (∃ adm, is_admin drv FLAGS st (UObj user) = Return adm
            ∧ (truthy adm = true
               ∨ User.id user ∈ Project.member_ids project))
  ∧ (check_type = "s3" →
     signature = s3_authorization signer (User.secret user) hdrs verb path)
  ∧ (check_type = "ec2" →
     signature
     = generate signer (User.secret user) prms verb server_string path).
Proof.
  destruct (partition_colon access) as [[access_key sep] project_id] eqn:Hp.
  cbn [fst snd].
  destruct (get_user_from_access_key drv st access_key) as [user'|] eqn:Hu;
    [|by unfold authenticate; rewrite Hp, Hu].
  destruct (get_project drv st
              (if bool_decide (project_id = "") then User.name user'
               else project_id)) as [project'|] eqn:Hpr;
    [|by unfold authenticate; rewrite Hp, Hu, Hpr].
  destruct (is_admin drv FLAGS st (UObj user')) as [adm|e] eqn:Hadm;
    [|by unfold authenticate; rewrite Hp, Hu, Hpr, Hadm].
  rewrite (authenticate_resolved _ _ _ _ _ _ _ _ _ _ _ _ _ _ _ _ _ _
             Hp Hu Hpr Hadm).
  destruct (truthy adm) eqn:Hadm_true; cbn [negb andb].
  - intros H.
    assert (user' = user ∧ project' = project) as [-> ->]
      by (repeat case_bool_decide; split; congruence).
    split_and!; [done|done|by eauto| |].
    + intros ->. rewrite bool_decide_true in H by done.
      case_bool_decide; [done|discriminate].
    + intros ->. rewrite bool_decide_false in H by done.
      rewrite bool_decide_true in H by done.
      case_bool_decide; [done|discriminate].
  - destruct (decide (User.id user' ∈ Project.member_ids project'))
      as [Hin|Hin];
      [rewrite (bool_decide_true _ Hin)
      |rewrite (bool_decide_false _ Hin); discriminate].
    cbn [negb]. intros H.
    assert (user' = user ∧ project' = project) as [-> ->]
      by (repeat case_bool_decide; split; congruence).
    split_and!; [done|done|by eauto| |].
    + intros ->. rewrite bool_decide_true in H by done.
      case_bool_decide; [done|discriminate].
    + intros ->. rewrite bool_decide_false in H by done.
      rewrite bool_decide_true in H by done.
      case_bool_decide; [done|discriminate].
Qed.

(** X12.  [authenticate] raises [NotFound] or [NotAuthorized] and nothing
    else, unless [projectmanager] is listed among the superuser or global
    roles, in which case it can also raise the [Error] of [has_role]. *)
Theorem authenticate_raises_only st access signature prms verb
    server_string path check_type hdrs e :
  authenticate drv FLAGS signer st access signature prms verb server_string
    path check_type hdrs = Raise e →
  e = NotFound ∨ e = NotAuthorized
  ∨ (e = Error
     ∧ ("projectmanager" ∈ superuser_roles FLAGS
        ∨ "projectmanager" ∈ global_roles FLAGS)).
Proof.
  destruct (partition_colon access) as [[access_key sep] project_id] eqn:Hp.
  destruct (get_user_from_access_key drv st access_key) as [user|] eqn:Hu;
    [|unfold authenticate; rewrite Hp, Hu; intros [= <-]; by left].
  destruct (get_project drv st
              (if bool_decide (project_id = "") then User.name user
               else project_id)) as [project|] eqn:Hpr;
    [|unfold authenticate; rewrite Hp, Hu, Hpr; intros [= <-]; by left].
  destruct (is_admin drv FLAGS st (UObj user)) as [adm|e'] eqn:Hadm.
  - rewrite (authenticate_resolved _ _ _ _ _ _ _ _ _ _ _ _ _ _ _ _ _ _
               Hp Hu Hpr Hadm).
    repeat case_match; intros [= <-]; auto.
  - unfold authenticate. rewrite Hp, Hu, Hpr, Hadm. cbn [bind].
    intros [= <-]. right; right.
    split; [by eapply is_admin_raises_Error|].
    destruct (decide ("projectmanager" ∈ superuser_roles FLAGS));
      [by left|].
    destruct (decide ("projectmanager" ∈ global_roles FLAGS));
      [by right|].
    destruct (is_admin_returns drv FLAGS st user) as [adm Hret];
      [done|done|congruence].
Qed.

(** X13.  The admin flag opens every project: a flagged user whose key and
    project the driver finds is accepted whatever the project's members and
    the configured roles, provided the signature matches when the check
    type is [s3] or [ec2]. *)
Theorem authenticate_admin_flag_any_project st access signature prms verb
    server_string path check_type hdrs access_key sep project_id user
    project :
  partition_colon access = (access_key, sep, project_id) →
  get_user_from_access_key drv st access_key = Some user →
  get_project drv st
    (if bool_decide (project_id = "") then User.name user else project_id)
    = Some project →
  User.admin user = true →
  (check_type = "s3" →
   signature = s3_authorization signer (User.secret user) hdrs verb path) →
  (check_type = "ec2" →
   signature
   = generate signer (User.secret user) prms verb server_string path) →
  authenticate drv FLAGS signer st access signature prms verb server_string
    path check_type hdrs = Return (user, project).
Proof.
  intros Hp Hu Hpr Hflag Hs3 Hec2.
  assert (is_admin drv FLAGS st (UObj user) = Return (VBool true)) as Hadm.
  { unfold is_admin, is_superuser. cbn [user_object bind].
    by rewrite Hflag. }
  rewrite (authenticate_resolved _ _ _ _ _ _ _ _ _ _ _ _ _ _ _ _ _ _
             Hp Hu Hpr Hadm).
  cbn [truthy negb andb].
  destruct (decide (check_type = "s3")) as [Hct|Hct].
  { by rewrite (bool_decide_true _ Hct), (bool_decide_true _ (Hs3 Hct)). }
  rewrite (bool_decide_false _ Hct).
  destruct (decide (check_type = "ec2")) as [Hct'|Hct'].
  { by rewrite (bool_decide_true _ Hct'), (bool_decide_true _ (Hec2 Hct')). }
  by rewrite (bool_decide_false _ Hct').
Qed.

Lemma first_role_raises_at_projectmanager st u pre post :
  (∀ role : string, role ∈ pre →
     has_role drv FLAGS st (UObj u) role PNone = Return false) →
  first_role drv FLAGS st u (pre ++ "projectmanager" :: post)%list
  = Raise Error.
Proof.
  induction pre as [|role pre IH]; intros Hpre; [done|].
  cbn [first_role app]. rewrite (Hpre role) by left. cbn [bind].
  apply IH. intros role' Hin. apply Hpre. by right.
Qed.

(** X14.  With [projectmanager] listed among the superuser roles, a user
    without the admin flag who holds none of the roles listed before it
    gets [Error] from [is_superuser] and from [is_admin], and cannot
    authenticate at all: [authenticate] raises [Error] even for a member of
    the project with a matching signature. *)
Theorem projectmanager_as_superuser_role_raises st (u : User.t) pre post :
  User.admin u = false →
  superuser_roles FLAGS = (pre ++ "projectmanager" :: post)%list →
  (∀ role : string, role ∈ pre →
     has_role drv FLAGS st (UObj u) role PNone = Return false) →
  is_superuser drv FLAGS st (UObj u) = Raise Error
  ∧ is_admin drv FLAGS st (UObj u) = Raise Error
  ∧ (∀ access signature prms verb server_string path check_type hdrs
       access_key sep project_id project,
       partition_colon access = (access_key, sep, project_id) →
       get_user_from_access_key drv st access_key = Some u →
       get_project drv st
         (if bool_decide (project_id = "") then User.name u
          else project_id) = Some project →
       authenticate drv FLAGS signer st access signature prms verb
         server_string path check_type hdrs = Raise Error).
Proof.
  intros Hflag Hroles Hpre.
  assert (is_superuser drv FLAGS st (UObj u) = Raise Error) as Hsu.
  { unfold is_superuser. cbn [user_object bind].
    rewrite Hflag, Hroles. by apply first_role_raises_at_projectmanager. }
  assert (is_admin drv FLAGS st (UObj u) = Raise Error) as Hadm.
  { unfold is_admin. cbn [user_object bind]. by rewrite Hsu. }
  split_and!; [done|done|].
  intros access signature prms verb server_string path check_type hdrs
    access_key sep project_id project Hp Hu Hpr.
  unfold authenticate. by rewrite Hp, Hu, Hpr, Hadm.
Qed.

End AuthenticationMore.

(** ** The pool over any run *)

Section PoolRuns.
Variable FLAGS : Flags.

Lemma materialized_destroy r vpn :
  Vpn.materialized (Vpn.destroy r vpn) (VpnData.ip vpn) = true.
Proof.
  apply materialized_of_members.
  rewrite smembers_destroy, decide_True by done.
  intros Hempty.
  apply (not_elem_of_empty (C := gset Z) (VpnData.port vpn)).
  rewrite <- Hempty. apply elem_of_union_l. by apply elem_of_singleton.
Qed.

(** X15.  The pool is seeded once: after a [create] that returned, and
    after any [destroy], the ip counts as seeded, so the next
    [find_free_port_for_ip] pops from the set as it stands and never adds
    the configured range a second time. *)
Theorem pool_stays_seeded :
  (∀ choice r project_id vpn r',
     Vpn.create FLAGS choice r project_id = Return (vpn, r') →
     Vpn.materialized r' (vpn_ip FLAGS) = true
     ∧ Vpn.pool_at_pop FLAGS r' (vpn_ip FLAGS)
       = Redis.smembers r' (vpn_ip FLAGS))
  ∧ (∀ r vpn,
       Vpn.materialized (Vpn.destroy r vpn) (VpnData.ip vpn) = true
       ∧ Vpn.pool_at_pop FLAGS (Vpn.destroy r vpn) (VpnData.ip vpn)
         = Redis.smembers (Vpn.destroy r vpn) (VpnData.ip vpn)).
Proof.
  split.
  - intros choice r project_id vpn r' (_ & _ & _ & Hmat)%create_inv.
    split; [done|]. by apply pool_at_pop_materialized.
  - intros r vpn. pose proof (materialized_destroy r vpn) as Hmat.
    split; [done|]. by apply pool_at_pop_materialized.
Qed.

(** The invariant of the reachable states. *)
Lemma reachable_invariant r held :
  Pool.reachable FLAGS r held →
  NoDup (Pool.held_ports held)
  ∧ (∀ vpn, vpn ∈ held → VpnData.ip vpn = vpn_ip FLAGS)
  ∧ (∀ port, port ∈ Pool.held_ports held →
             port ∉ Vpn.pool_at_pop FLAGS r (vpn_ip FLAGS))
  ∧ list_to_set (Pool.held_ports held)
      ∪ Vpn.pool_at_pop FLAGS r (vpn_ip FLAGS)
    = Pool.configured_ports FLAGS
  ∧ (held ≠ [] → Vpn.materialized r (vpn_ip FLAGS) = true).
Proof.
  induction 1 as [r Hfirst
                 |r held choice project_id vpn r' _ IH Hcreate
                 |r held1 vpn held2 _ IH].
  - split_and!; [constructor|by intros ? ?%elem_of_nil
                |by intros ? ?%elem_of_nil| |done].
    unfold Vpn.pool_at_pop, Pool.configured_ports. rewrite Hfirst.
    cbn [Pool.held_ports fmap list_fmap list_to_set].
    by rewrite (left_id_L ∅ (∪)).
  - destruct IH as (Hnodup & Hip & Hdisj & Hunion & _).
    apply create_inv in Hcreate as (Hvip & Hin & Hm & Hmat).
    rewrite (pool_at_pop_materialized FLAGS r' _ Hmat), Hm.
    cbn [Pool.held_ports fmap list_fmap]. fold (Pool.held_ports held).
    split_and!; [| | | |done].
    + constructor; [|done]. intros Hheld. by apply (Hdisj _ Hheld).
    + intros v [->|Hv]%elem_of_cons; [done|by apply Hip].
    + intros port [->|Hport]%elem_of_cons.
      * intros [_ Hne]%elem_of_difference. by apply Hne, elem_of_singleton.
      * intros [Hp _]%elem_of_difference. by apply (Hdisj _ Hport).
    + rewrite <- Hunion. apply set_eq. intros x.
      rewrite list_to_set_cons, !elem_of_union, elem_of_difference,
        !elem_of_singleton.
      destruct (decide (x = VpnData.port vpn)) as [->|Hne]; [|tauto].
      split; [intros _; by right|by (intros _; left; left)].
  - destruct IH as (Hnodup & Hip & Hdisj & Hunion & Hmat).
    assert (Vpn.materialized r (vpn_ip FLAGS) = true) as Hr
      by (apply Hmat; by destruct held1).
    assert (VpnData.ip vpn = vpn_ip FLAGS) as Hvip.
    { apply Hip, elem_of_app. right. by left. }
    rewrite (pool_at_pop_materialized FLAGS r _ Hr) in Hdisj, Hunion.
    pose proof (materialized_destroy r vpn) as Hmat'. rewrite Hvip in Hmat'.
    rewrite (pool_at_pop_materialized FLAGS _ _ Hmat').
    rewrite smembers_destroy, decide_True, Hvip by done.
    unfold Pool.held_ports in *. rewrite fmap_app in *.
    rewrite fmap_cons in Hnodup, Hdisj, Hunion.
    apply list.NoDup_app in Hnodup as (Hn1 & Hsep & Hn2).
    apply list.NoDup_cons in Hn2 as [Hnot2 Hn2].
    assert (VpnData.port vpn ∉ VpnData.port <$> held1) as Hnot1.
    { intros Hin. apply (Hsep _ Hin). by left. }
    split_and!; [| | | |done].
    + apply list.NoDup_app. split_and!; [done| |done].
      intros x Hx1 Hx2. apply (Hsep _ Hx1). by right.
    + intros v Hv. apply Hip. apply elem_of_app in Hv as [Hv|Hv];
        apply elem_of_app; [by left|right; by right].
    + intros port Hport [->%elem_of_singleton|Hfree]%elem_of_union.
      * apply elem_of_app in Hport as [?|?]; done.
      * apply (Hdisj port); [|done].
        apply elem_of_app in Hport as [?|?]; apply elem_of_app;
          [by left|right; by right].
    + rewrite <- Hunion. apply set_eq. intros x.
      rewrite !list_to_set_app_L, list_to_set_cons, !elem_of_union,
        !elem_of_singleton.
      tauto.
Qed.

(** X16.  In every state reached by [create] and [destroy] from a first
    use, the ports of the outstanding objects are pairwise different and
    none of them is among the ports [find_free_port_for_ip] would pop;
    held and poppable ports together are exactly the configured range, so
    no port is handed out twice and none is lost. *)
Theorem reachable_ports_partition_range r held :
  Pool.reachable FLAGS r held →
  NoDup (Pool.held_ports held)
  ∧ (∀ port, port ∈ Pool.held_ports held →
             port ∉ Vpn.pool_at_pop FLAGS r (vpn_ip FLAGS))
  ∧ (∀ port,
       (vpn_start_port FLAGS ≤ port ≤ vpn_end_port FLAGS)%Z
       ↔ port ∈ Pool.held_ports held
         ∨ port ∈ Vpn.pool_at_pop FLAGS r (vpn_ip FLAGS)).
Proof.
  intros (Hnodup & _ & Hdisj & Hunion & _)%reachable_invariant.
  split_and!; [done|done|]. intros port.
  transitivity (port ∈ Pool.configured_ports FLAGS).
  - unfold Pool.configured_ports, Vpn.range.
    rewrite elem_of_list_to_set, elem_of_seqZ. lia.
  - rewrite <- Hunion, elem_of_union, elem_of_list_to_set. tauto.
Qed.

Lemma size_configured_ports :
  size (Pool.configured_ports FLAGS)
  = Z.to_nat (vpn_end_port FLAGS + 1 - vpn_start_port FLAGS).
Proof.
  unfold Pool.configured_ports, Vpn.range.
  rewrite size_list_to_set by apply NoDup_seqZ. apply length_seqZ.
Qed.

Lemma reachable_count r held :
  Pool.reachable FLAGS r held →
  length held + size (Vpn.pool_at_pop FLAGS r (vpn_ip FLAGS))
  = Z.to_nat (vpn_end_port FLAGS + 1 - vpn_start_port FLAGS).
Proof.
  intros (Hnodup & _ & Hdisj & Hunion & _)%reachable_invariant.
  rewrite <- size_configured_ports, <- Hunion, size_union.
  - rewrite size_list_to_set by done. unfold Pool.held_ports.
    by rewrite length_fmap.
  - intros port Hheld%elem_of_list_to_set Hfree. by apply (Hdisj port).
Qed.

(** X17.  In a reachable state [create] raises [NoMorePorts] exactly when
    as many objects are outstanding as the configured range has ports;
    with fewer it returns. *)
Theorem reachable_create_exhausted_iff r held choice project_id :
  Pool.reachable FLAGS r held →
  (Vpn.create FLAGS choice r project_id = Raise NoMorePorts
   ↔ length held
     = Z.to_nat (vpn_end_port FLAGS + 1 - vpn_start_port FLAGS))
  ∧ (length held
     < Z.to_nat (vpn_end_port FLAGS + 1 - vpn_start_port FLAGS) →
     ∃ vpn r', Vpn.create FLAGS choice r project_id = Return (vpn, r')).
Proof.
  intros Hcount%reachable_count.
  destruct (create_spec FLAGS choice r project_id)
    as [[Hempty Hraise] | (port & r' & Hin & Hret & _)].
  - rewrite Hempty, size_empty in Hcount. split; [|lia].
    split; [lia|done].
  - assert (size (Vpn.pool_at_pop FLAGS r (vpn_ip FLAGS)) ≠ 0).
    { intros Hzero%size_empty_iff%leibniz_equiv.
      rewrite Hzero in Hin. by apply not_elem_of_empty in Hin. }
    rewrite Hret. split; [|by eauto]. split; [discriminate|lia].
Qed.

(** X18.  In a reachable state past the first use, the free ports counted
    by [num_ports_for_ip] and the outstanding objects add up to the size of
    the configured range. *)
Theorem reachable_free_plus_held r held :
  Pool.reachable FLAGS r held →
  Vpn.materialized r (vpn_ip FLAGS) = true →
  Vpn.num_ports_for_ip r (vpn_ip FLAGS) + length held
  = Z.to_nat (vpn_end_port FLAGS + 1 - vpn_start_port FLAGS).
Proof.
  intros Hcount%reachable_count Hmat.
  rewrite (pool_at_pop_materialized FLAGS r _ Hmat) in Hcount.
  unfold Vpn.num_ports_for_ip, Redis.scard. lia.
Qed.

(** X19.  Destroying the same object twice leaves the port sets as the
    first [destroy] left them: the port is not added a second time. *)
Theorem destroy_twice r vpn ip :
  Redis.smembers (Vpn.destroy (Vpn.destroy r vpn) vpn) ip
  = Redis.smembers (Vpn.destroy r vpn) ip
  ∧ Vpn.num_ports_for_ip (Vpn.destroy (Vpn.destroy r vpn) vpn) ip
    = Vpn.num_ports_for_ip (Vpn.destroy r vpn) ip.
Proof.
  assert (Redis.smembers (Vpn.destroy (Vpn.destroy r vpn) vpn) ip
          = Redis.smembers (Vpn.destroy r vpn) ip) as Heq.
  { rewrite !smembers_destroy. case_decide; [|done].
    rewrite decide_True by done.
    by rewrite (assoc_L (∪)), (idemp_L (∪)). }
  split; [done|]. unfold Vpn.num_ports_for_ip, Redis.scard. by rewrite Heq.
Qed.

End PoolRuns.

(** ** Vpn objects, credentials and projects *)

Section Provisioning.
Context {S : Type}.
Variable drv : Driver S.
Variable FLAGS : Flags.
Variable issuer : Issuer.
Variable admin : AdminDriver S.

(** What [create] returns is what [lookup] then finds. *)
Lemma create_lookup choice r project_id vpn r' :
  Vpn.create FLAGS choice r project_id = Return (vpn, r') →
  VpnData.project_id vpn = project_id
  ∧ Vpn.lookup r' project_id = Some vpn.
Proof.
  unfold Vpn.create.
  destruct (Vpn.find_free_port_for_ip FLAGS choice r (vpn_ip FLAGS))
    as [[port r1]|e]; [|discriminate].
  cbn [bind]. intros [= <- <-]. split; [done|].
  unfold Vpn.lookup, BasicModel.lookup, Vpn.save, BasicModel.save.
  cbn [models VpnData.project_id]. apply lookup_insert_eq.
Qed.

(** [get_project_vpn_data] for a project given by object or by id looks
    the id up; without a project it looks up the text ["None"]. *)
Lemma get_project_vpn_data_lookup r project pid :
  Project_safe_id project = Some pid →
  get_project_vpn_data r project
  = match Vpn.lookup r pid with
    | None => (None, None)
    | Some vpn => (Some (VpnData.ip vpn), Some (VpnData.port vpn))
    end.
Proof. unfold get_project_vpn_data. by intros ->. Qed.

Lemma get_project_vpn_data_without_project r :
  get_project_vpn_data r PNone = get_project_vpn_data r (PId "None").
Proof. reflexivity. Qed.

(** X20.  [Vpn.create] raises nothing but [NoMorePorts], and raises it
    exactly when there is no port to pop.  When it returns, the object is
    for the given project on [FLAGS.vpn_ip], its port was among the ports
    to pop and is taken out of the set, and the port sets of all other ips
    are untouched. *)
Theorem create_outcome choice r project_id :
  (Vpn.create FLAGS choice r project_id = Raise NoMorePorts
   ↔ Vpn.pool_at_pop FLAGS r (vpn_ip FLAGS) = ∅)
  ∧ (∀ e, Vpn.create FLAGS choice r project_id = Raise e →
          e = NoMorePorts)
  ∧ (∀ vpn r',
       Vpn.create FLAGS choice r project_id = Return (vpn, r') →
       vpn = VpnData.mk project_id (vpn_ip FLAGS) (VpnData.port vpn)
       ∧ VpnData.port vpn ∈ Vpn.pool_at_pop FLAGS r (vpn_ip FLAGS)
       ∧ Redis.smembers r' (vpn_ip FLAGS)
         = Vpn.pool_at_pop FLAGS r (vpn_ip FLAGS) ∖ {[VpnData.port vpn]}
       ∧ (∀ ip, ip ≠ vpn_ip FLAGS →
                Redis.smembers r' ip = Redis.smembers r ip)).
Proof.
  unfold Vpn.create.
  destruct (find_free_port_for_ip_spec FLAGS choice r (vpn_ip FLAGS))
    as [[Hempty ->] | (port & r1 & Hin & -> & Hm & Hframe & _)];
    cbn [bind].
  - split_and!; [done|by intros e [= <-]|discriminate].
  - split_and!; [|discriminate|].
    + split; [discriminate|]. intros Hempty. rewrite Hempty in Hin.
      by apply not_elem_of_empty in Hin.
    + intros vpn r' [= <- <-]. cbn [VpnData.port].
      split_and!; [done|done|by rewrite smembers_save|].
      intros ip Hip. rewrite smembers_save. by apply Hframe.
Qed.

(** X21.  After a [create] for a project, [get_project_vpn_data] of that
    project gives [FLAGS.vpn_ip] and the port that [create] handed out;
    after the [destroy] of the object it gives [(None, None)] again. *)
Theorem vpn_data_follows_create_and_destroy choice r project_id vpn r' :
  Vpn.create FLAGS choice r project_id = Return (vpn, r') →
  get_project_vpn_data r' (PId project_id)
  = (Some (vpn_ip FLAGS), Some (VpnData.port vpn))
  ∧ get_project_vpn_data (Vpn.destroy r' vpn) (PId project_id)
    = (None, None).
Proof.
  intros Hcreate.
  destruct (create_lookup _ _ _ _ _ Hcreate) as [Hid Hlookup].
  apply create_inv in Hcreate as (Hip & _).
  rewrite !(get_project_vpn_data_lookup _ (PId project_id) project_id
             eq_refl).
  rewrite Hlookup, Hip. split; [done|].
  unfold Vpn.lookup, BasicModel.lookup, Vpn.destroy, BasicModel.destroy.
  cbn [models]. by rewrite Hid, lookup_delete_eq.
Qed.

(** X22.  [create] does not look for an object the project already has: a
    second [create] for the same project replaces the stored object, and
    the port of the first is then neither found through the project nor
    back among the free ports. *)
Theorem create_twice_for_one_project choice1 choice2 r project_id vpn1 r1
    vpn2 r2 :
  Vpn.create FLAGS choice1 r project_id = Return (vpn1, r1) →
  Vpn.create FLAGS choice2 r1 project_id = Return (vpn2, r2) →
  get_project_vpn_data r2 (PId project_id)
  = (Some (vpn_ip FLAGS), Some (VpnData.port vpn2))
  ∧ VpnData.port vpn1 ≠ VpnData.port vpn2
  ∧ VpnData.port vpn1 ∉ Redis.smembers r2 (vpn_ip FLAGS).
Proof.
  intros H1 H2.
  destruct (create_lookup _ _ _ _ _ H2) as [_ Hlookup].
  apply create_inv in H1 as (_ & _ & Hm1 & Hmat1).
  apply create_inv in H2 as (Hip2 & Hin2 & Hm2 & _).
  rewrite (pool_at_pop_materialized FLAGS r1 _ Hmat1) in Hin2, Hm2.
  split_and!.
  - rewrite (get_project_vpn_data_lookup _ (PId project_id) project_id
               eq_refl).
    by rewrite Hlookup, Hip2.
  - intros Heq. rewrite Hm1, <- Heq in Hin2.
    apply elem_of_difference in Hin2 as [_ Hne].
    by apply Hne, elem_of_singleton.
  - rewrite Hm2, Hm1. intros [[_ Hne]%elem_of_difference _]%elem_of_difference.
    by apply Hne, elem_of_singleton.
Qed.

(** X23.  Once [create] has returned for a project, [get_credentials]
    succeeds for that project, given as an object or by its id: the zip has
    the five entries under their configured names, and the VPN client
    configuration is rendered from [FLAGS.vpn_ip] and the port handed
    out. *)
Theorem get_credentials_after_create st choice r project_id vpn r' user u
    project :
  Vpn.create FLAGS choice r project_id = Return (vpn, r') →
  user_object drv st user = Return u →
  Project_safe_id project = Some project_id →
  get_credentials drv FLAGS issuer st r' user project
  = Return
      [ (credential_rc_file FLAGS,
         generate_rc issuer (User.access u) (User.secret u) project_id);
        (credential_key_file FLAGS,
         (generate_x509_cert issuer (User.id u) project_id).1);
        (credential_cert_file FLAGS,
         (generate_x509_cert issuer (User.id u) project_id).2);
        ("nebula-client.conf",
         vpn_client_config issuer (vpn_ip FLAGS) (VpnData.port vpn));
        (ca_file FLAGS, fetch_ca issuer (User.id u)) ].
Proof.
  intros Hcreate Hu Hproject.
  destruct (create_lookup _ _ _ _ _ Hcreate) as [_ Hlookup].
  apply create_inv in Hcreate as (Hip & _).
  unfold get_credentials. rewrite (bind_Return _ _ _ Hu).
  assert (match project with
          | PNone => PId (User.id u)
          | _ => project
          end = project) as -> by (by destruct project).
  rewrite Hproject.
  change (default "" (Some project_id)) with project_id. cbv zeta.
  destruct (generate_x509_cert issuer (User.id u) project_id).
  by rewrite Hlookup, Hip.
Qed.

(** X24.  [create_project] takes a port only for a project the driver has
    created and only when [FLAGS.use_vpn] is set.  When no port is left it
    raises [NoMorePorts] after the driver has created the project, which
    stays in the backend; otherwise the new project has its vpn data. *)
Theorem create_project_outcomes st r choice name manager_user description
    member_users project_dict st' :
  drv_create_project admin st name (User_safe_id manager_user) description
    (fmap (M := list) User_safe_id <$> member_users)
  = (project_dict, st') →
  (project_dict = None →
   create_project FLAGS admin st r choice name manager_user description
     member_users = (st', r, Return None))
  ∧ (∀ project, project_dict = Some project → use_vpn FLAGS = false →
     create_project FLAGS admin st r choice name manager_user description
       member_users = (st', r, Return (Some project)))
  ∧ (∀ project, project_dict = Some project → use_vpn FLAGS = true →
     Vpn.pool_at_pop FLAGS r (vpn_ip FLAGS) = ∅ →
     create_project FLAGS admin st r choice name manager_user description
       member_users = (st', r, Raise NoMorePorts))
  ∧ (∀ project, project_dict = Some project → use_vpn FLAGS = true →
     Vpn.pool_at_pop FLAGS r (vpn_ip FLAGS) ≠ ∅ →
     ∃ port r',
       create_project FLAGS admin st r choice name manager_user description
         member_users = (st', r', Return (Some project))
       ∧ port ∈ Vpn.pool_at_pop FLAGS r (vpn_ip FLAGS)
       ∧ get_project_vpn_data r' (PObj project)
         = (Some (vpn_ip FLAGS), Some port)).
Proof.
  intros Hdrv. unfold create_project. rewrite Hdrv.
  split_and!.
  - by intros ->.
  - by intros project -> ->.
  - intros project -> -> Hempty.
    destruct (create_spec FLAGS choice r (Project.id project))
      as [[_ ->] | (port & _ & Hin & _)]; [done|].
    rewrite Hempty in Hin. by apply not_elem_of_empty in Hin.
  - intros project -> -> Hfree.
    destruct (create_spec FLAGS choice r (Project.id project))
      as [[Hempty _] | (port & r' & Hin & Hret & _)]; [done|].
    exists port, r'. rewrite Hret. split_and!; [done|done|].
    destruct (create_lookup _ _ _ _ _ Hret) as [_ Hlookup].
    rewrite (get_project_vpn_data_lookup _ (PObj project)
               (Project.id project) eq_refl).
    by rewrite Hlookup.
Qed.

End Provisioning.

(** ** Key pairs *)

Section KeyPairs.
Context {S : Type}.
Variable drv : Driver S.
Variable admin : AdminDriver S.
Hypothesis laws : key_pair_laws drv admin.

(** X25.  [generate_key_pair] raises [NotFound] for a user the driver does
    not know, whatever key pairs exist.  The private key it returns never
    reaches the driver: the backend it leaves is the same for any private
    key.  And a name is generated once: after a call that returned, a
    second call for the same user and name raises [Duplicate] and leaves
    the backend alone. *)
Theorem generate_key_pair_once st user key_name private_key public_key
    fingerprint :
  (drv_get_user drv st (User_safe_id user) = None →
   ∀ fresh,
     generate_key_pair drv admin st user key_name fresh
     = (st, RaiseNotFound))
  ∧ (∀ private_key',
       (generate_key_pair drv admin st user key_name
          (private_key', public_key, fingerprint)).1
       = (generate_key_pair drv admin st user key_name
            (private_key, public_key, fingerprint)).1)
  ∧ (∀ st1,
       generate_key_pair drv admin st user key_name
         (private_key, public_key, fingerprint)
       = (st1, Generated private_key fingerprint) →
       ∀ fresh,
         generate_key_pair drv admin st1 user key_name fresh
         = (st1, RaiseDuplicate)).
Proof.
  split_and!.
  - intros Hu fresh. unfold generate_key_pair. by rewrite Hu.
  - intros private_key'. unfold generate_key_pair.
    by repeat case_match.
  - intros st1. unfold generate_key_pair at 1.
    destruct (drv_get_user drv st (User_safe_id user)) as [u|] eqn:Hu;
      [|discriminate].
    destruct (drv_get_key_pair admin st (User_safe_id user) key_name)
      eqn:Hkp; [discriminate|].
    unfold create_key_pair. cbn [User_safe_id]. intros [= <-] fresh.
    unfold generate_key_pair.
    rewrite (key_pair_keeps_users drv admin laws), Hu.
    pose proof (key_pair_created drv admin laws st (User_safe_id user)
                  key_name public_key fingerprint) as Hstored.
    destruct (drv_get_key_pair admin
                (drv_create_key_pair admin st (User_safe_id user) key_name
                   public_key fingerprint).2
                (User_safe_id user) key_name); [done|].
    by destruct Hstored.
Qed.

End KeyPairs.

(** ** The reference backends keep the laws *)

Lemma memory_grant_laws : grant_laws MemoryDriver.driver.
Proof.
  split; intros; cbn [drv_has_role drv_add_role drv_remove_role
                      MemoryDriver.driver];
    unfold MemoryDriver.has_role, MemoryDriver.add_role,
      MemoryDriver.remove_role; cbn [MemoryDriver.grants].
  - apply bool_decide_eq_true, elem_of_union_l. by apply elem_of_singleton.
  - apply bool_decide_ext. split; [|by apply elem_of_union_r].
    intros [Hnew%elem_of_singleton|Hold]%elem_of_union; [congruence|done].
  - apply bool_decide_eq_false.
    intros [_ Hnot]%elem_of_difference. by apply Hnot, elem_of_singleton.
  - apply bool_decide_ext. split; [by intros [Hold _]%elem_of_difference|].
    intros Hold. apply elem_of_difference. split; [done|].
    intros Hnew%elem_of_singleton. congruence.
Qed.

Lemma memory_key_pair_laws :
  key_pair_laws MemoryAdmin.driver MemoryAdmin.admin.
Proof.
  split; intros; [|done].
  cbn [drv_get_key_pair drv_create_key_pair MemoryAdmin.admin].
  unfold MemoryAdmin.get_key_pair, MemoryAdmin.create_key_pair.
  cbn [snd MemoryAdmin.key_pairs List.find KeyPair.owner_id KeyPair.name].
  by rewrite !bool_decide_true.
Qed.

(** ** Examples for the further properties *)

Lemma has_role_in_project_implies_global_witness :
  has_role MemoryDriver.driver default_flags Sample.store (UObj Sample.u2)
    "netadmin" PNone = Return true.
Proof.
  apply (has_role_in_project_implies_global MemoryDriver.driver
           default_flags Sample.store (UObj Sample.u2) "netadmin"
           (PObj Sample.t1)); [discriminate | by vm_compute].
Defined.

Lemma has_role_global_role_ignores_project_witness :
  has_role MemoryDriver.driver default_flags Sample.store (UObj Sample.u2)
    "itsec" (PObj Sample.t2)
  = has_role MemoryDriver.driver default_flags Sample.store (UObj Sample.u2)
      "itsec" PNone.
Proof.
  apply (has_role_global_role_ignores_project MemoryDriver.driver
           default_flags Sample.store (UObj Sample.u2) "itsec"
           (PObj Sample.t2)); [discriminate|].
  apply list_elem_of_In. simpl. tauto.
Defined.

Lemma projectmanager_not_configured :
  ("projectmanager" ∉ superuser_roles default_flags)
  ∧ ("projectmanager" ∉ global_roles default_flags).
Proof.
  split; intros H; apply list_elem_of_In in H; simpl in H;
    repeat destruct H as [H|H]; try discriminate H; done.
Defined.

Lemma is_superuser_True_iff_witness :
  is_superuser MemoryDriver.driver default_flags Sample.store
    (UObj Sample.root) = Return (VBool true).
Proof.
  apply (proj1 (is_superuser_True_iff MemoryDriver.driver default_flags
                  Sample.store Sample.root
                  (proj1 projectmanager_not_configured))).
  by left.
Defined.

Lemma is_admin_True_iff_witness :
  is_admin MemoryDriver.driver default_flags Sample.store (UObj Sample.u2)
  = Return (VBool true).
Proof.
  apply (proj1 (is_admin_True_iff MemoryDriver.driver default_flags
                  Sample.store Sample.u2
                  (proj1 projectmanager_not_configured)
                  (proj2 projectmanager_not_configured))).
  right. exists "itsec". split; [|by vm_compute].
  apply list_elem_of_In. simpl. tauto.
Defined.

Lemma is_superuser_implies_is_admin_witness :
  is_admin MemoryDriver.driver default_flags Sample.store (UId "root")
  = Return (VBool true).
Proof.
  apply (is_superuser_implies_is_admin MemoryDriver.driver default_flags
           Sample.store (UId "root")).
  by vm_compute.
Defined.

Lemma checks_accept_objects_or_ids_witness :
  is_admin MemoryDriver.driver default_flags Sample.store (UId "u1")
  = is_admin MemoryDriver.driver default_flags Sample.store (UObj Sample.u1)
  ∧ has_role MemoryDriver.driver default_flags Sample.store (UObj Sample.u1)
      "projectmanager" (PId "t1")
    = has_role MemoryDriver.driver default_flags Sample.store
        (UObj Sample.u1) "projectmanager" (PObj Sample.t1).
Proof.
  pose proof (checks_accept_objects_or_ids MemoryDriver.driver default_flags
                Sample.store Sample.u1 Sample.t1 (UObj Sample.u1)
                "projectmanager" PNone eq_refl eq_refl)
    as (_ & Hadmin & _ & _ & _ & Hrole).
  split; [exact Hadmin|]. apply Hrole. discriminate.
Defined.

Lemma checks_raise_on_unknown_ids_witness :
  is_admin MemoryDriver.driver default_flags Sample.store (UId "ghost")
  = Raise AttributeError
  ∧ is_project_member MemoryDriver.driver Sample.store (UObj Sample.u1)
      (PId "nowhere") = Raise AttributeError.
Proof.
  pose proof (checks_raise_on_unknown_ids MemoryDriver.driver default_flags
                Sample.issuer Sample.store empty_datastore "ghost" "nowhere"
                (UObj Sample.u1) PNone) as [Huser Hproject].
  split.
  - apply (proj1 (proj2 (Huser eq_refl))).
  - apply (proj1 (proj2 (Hproject eq_refl))).
Defined.

Lemma add_role_in_project_needs_global_witness :
  has_role MemoryDriver.driver default_flags
    (MemoryDriver.add_role Sample.store "u1" "developer" (Some "t2"))
    (UObj Sample.u1) "developer" (PObj Sample.t2) = Return false
  ∧ has_role MemoryDriver.driver default_flags
      (MemoryDriver.add_role
         (MemoryDriver.add_role Sample.store "u1" "developer" (Some "t2"))
         "u1" "developer" None)
      (UObj Sample.u1) "developer" (PObj Sample.t2) = Return true.
Proof.
  apply (add_role_in_project_needs_global MemoryDriver.driver default_flags
           memory_grant_laws Sample.store (UObj Sample.u1) "developer"
           (PObj Sample.t2));
    [discriminate | | reflexivity | by vm_compute | reflexivity
    | reflexivity].
  intros H. apply list_elem_of_In in H. simpl in H.
  destruct H as [H|[H|[]]]; discriminate H.
Defined.

Lemma remove_global_role_revokes_everywhere_witness :
  has_role MemoryDriver.driver default_flags
    (MemoryDriver.remove_role Sample.store "u2" "netadmin" None)
    (UObj Sample.u2) "netadmin" (PObj Sample.t1) = Return false
  ∧ MemoryDriver.has_role
      (MemoryDriver.remove_role Sample.store "u2" "netadmin" None)
      "u2" "netadmin" (Some "t1")
    = MemoryDriver.has_role Sample.store "u2" "netadmin" (Some "t1").
Proof.
  pose proof (remove_global_role_revokes_everywhere MemoryDriver.driver
                default_flags memory_grant_laws Sample.store
                (UObj Sample.u2) "netadmin" _
                ltac:(discriminate) eq_refl) as [Hall Hkept].
  split; [apply Hall | apply (Hkept "t1")].
Defined.

Lemma access_key_without_colon : ":"%char ∉ String.list_ascii_of_string "AK1".
Proof.
  intros H. apply list_elem_of_In in H. simpl in H.
  repeat destruct H as [H|H]; try discriminate H; done.
Defined.

Lemma authenticate_defaults_to_user_name_witness :
  authenticate MemoryDriver.driver default_flags Sample.signer Sample.store
    "AK1" "" [] "GET" "host" "/" "none" None
  = authenticate MemoryDriver.driver default_flags Sample.signer Sample.store
      "AK1:u1" "" [] "GET" "host" "/" "none" None.
Proof.
  apply (proj1 (authenticate_defaults_to_user_name MemoryDriver.driver
                  default_flags Sample.signer Sample.store "AK1" Sample.u1
                  "" [] "GET" "host" "/" "none" None
                  access_key_without_colon eq_refl)).
Defined.

Lemma authenticate_accepts_only_witness :
  "SK1|GET|host|/|Action=Run"
  = generate Sample.signer (User.secret Sample.u1) [("Action", "Run")] "GET"
      "host" "/".
Proof.
  apply (authenticate_accepts_only MemoryDriver.driver default_flags
           Sample.signer Sample.store "AK1:t1" "SK1|GET|host|/|Action=Run"
           [("Action", "Run")] "GET" "host" "/" "ec2" None Sample.u1
           Sample.t1 ltac:(by vm_compute)).
  reflexivity.
Defined.

Lemma authenticate_raises_only_witness :
  NotFound = NotFound ∨ NotFound = NotAuthorized
  ∨ (NotFound = Error
     ∧ ("projectmanager" ∈ superuser_roles default_flags
        ∨ "projectmanager" ∈ global_roles default_flags)).
Proof.
  apply (authenticate_raises_only MemoryDriver.driver default_flags
           Sample.signer Sample.store "AK1:t2" "" [] "GET" "host" "/"
           "none" None NotFound).
  by vm_compute.
Defined.

Lemma authenticate_admin_flag_any_project_witness :
  authenticate MemoryDriver.driver default_flags Sample.signer Sample.store
    "AK0:t1" "" [] "GET" "host" "/" "none" None
  = Return (Sample.root, Sample.t1).
Proof.
  apply (authenticate_admin_flag_any_project MemoryDriver.driver
           default_flags Sample.signer Sample.store "AK0:t1" "" [] "GET"
           "host" "/" "none" None "AK0" ":" "t1" Sample.root Sample.t1);
    [reflexivity | reflexivity | reflexivity | reflexivity
    | discriminate | discriminate].
Defined.

Lemma projectmanager_as_superuser_role_raises_witness :
  is_admin MemoryDriver.driver Fixture.projectmanager_superuser
    Sample.store (UObj Sample.u1) = Raise Error
  ∧ authenticate MemoryDriver.driver Fixture.projectmanager_superuser
      Sample.signer Sample.store "AK1:t1" "SK1|GET|host|/|Action=Run"
      [("Action", "Run")] "GET" "host" "/" "ec2" None = Raise Error.
Proof.
  pose proof (projectmanager_as_superuser_role_raises MemoryDriver.driver
                Fixture.projectmanager_superuser Sample.signer Sample.store
                Sample.u1 ["cloudadmin"] [] eq_refl eq_refl)
    as (_ & Hadmin & Hauth).
  { intros role Hrole. apply list_elem_of_In in Hrole. simpl in Hrole.
    destruct Hrole as [<-|[]]. by vm_compute. }
  split; [exact Hadmin|].
  by apply (Hauth "AK1:t1" _ _ _ _ _ _ _ "AK1" ":" "t1" Sample.t1).
Defined.

(** A first [create] on the empty datastore with three ports. *)
Lemma first_create_returns :
  { made | Vpn.create Sample.three_ports 0 empty_datastore "t1"
           = Return made }.
Proof.
  destruct (Vpn.create Sample.three_ports 0 empty_datastore "t1")
    as [made|e] eqn:H; [by exists made|].
  vm_compute in H. discriminate H.
Defined.

Lemma pool_stays_seeded_witness :
  Vpn.materialized (proj1_sig first_create_returns).2 "127.0.0.1" = true.
Proof.
  destruct first_create_returns as [[vpn r'] H]. cbn [proj1_sig snd].
  apply (proj1 (pool_stays_seeded Sample.three_ports) _ _ _ _ _ H).
Defined.

Lemma first_create_reachable :
  Pool.reachable Sample.three_ports (proj1_sig first_create_returns).2
    [(proj1_sig first_create_returns).1].
Proof.
  destruct first_create_returns as [[vpn r'] H]. cbn [proj1_sig fst snd].
  eapply Pool.reach_create; [|exact H].
  apply Pool.reach_first_use. by vm_compute.
Defined.

Lemma reachable_ports_partition_range_witness :
  NoDup (Pool.held_ports [(proj1_sig first_create_returns).1]).
Proof.
  apply (reachable_ports_partition_range Sample.three_ports _ _
           first_create_reachable).
Defined.

Lemma reachable_create_exhausted_iff_witness :
  ∃ vpn r',
    Vpn.create Sample.three_ports 1 (proj1_sig first_create_returns).2 "t2"
    = Return (vpn, r').
Proof.
  apply (proj2 (reachable_create_exhausted_iff Sample.three_ports _ _ 1%nat
                  "t2" first_create_reachable)).
  vm_compute. lia.
Defined.

Lemma first_create_materialized :
  Vpn.materialized (proj1_sig first_create_returns).2 "127.0.0.1" = true.
Proof.
  destruct first_create_returns as [[vpn r'] H]. cbn [proj1_sig snd].
  by apply create_inv in H as (_ & _ & _ & Hmat).
Defined.

Lemma reachable_free_plus_held_witness :
  Vpn.num_ports_for_ip (proj1_sig first_create_returns).2 "127.0.0.1" + 1
  = 3.
Proof.
  apply (reachable_free_plus_held Sample.three_ports _ _
           first_create_reachable first_create_materialized).
Defined.

Lemma create_outcome_witness :
  VpnData.port (proj1_sig first_create_returns).1
  ∈ Vpn.pool_at_pop Sample.three_ports empty_datastore "127.0.0.1".
Proof.
  destruct first_create_returns as [[vpn r'] H]. cbn [proj1_sig fst].
  apply (proj2 (proj2 (create_outcome Sample.three_ports 0 empty_datastore
                         "t1")) vpn r' H).
Defined.

Lemma vpn_data_follows_create_and_destroy_witness :
  get_project_vpn_data (proj1_sig first_create_returns).2 (PId "t1")
  = (Some "127.0.0.1", Some (VpnData.port (proj1_sig first_create_returns).1)).
Proof.
  destruct first_create_returns as [[vpn r'] H]. cbn [proj1_sig fst snd].
  apply (vpn_data_follows_create_and_destroy Sample.three_ports _ _ _ _ _ H).
Defined.

Lemma second_create_returns :
  { made | Vpn.create Sample.three_ports 1
             (proj1_sig first_create_returns).2 "t1" = Return made }.
Proof.
  destruct (Vpn.create Sample.three_ports 1
              (proj1_sig first_create_returns).2 "t1")
    as [made|e] eqn:H; [by exists made|].
  vm_compute in H. discriminate H.
Defined.

Lemma create_twice_for_one_project_witness :
  VpnData.port (proj1_sig first_create_returns).1
  ≠ VpnData.port (proj1_sig second_create_returns).1.
Proof.
  destruct second_create_returns as [[vpn2 r2] H2]. cbn [proj1_sig fst].
  revert H2.
  destruct first_create_returns as [[vpn1 r1] H1]. cbn [proj1_sig fst snd].
  intros H2.
  apply (create_twice_for_one_project Sample.three_ports _ _ _ _ _ _ _ _
           H1 H2).
Defined.

Lemma get_credentials_after_create_witness :
  ∃ zip,
    get_credentials MemoryDriver.driver Sample.three_ports Sample.issuer
      Sample.store (proj1_sig first_create_returns).2 (UId "u1") (PId "t1")
    = Return zip.
Proof.
  destruct first_create_returns as [[vpn r'] H]. cbn [proj1_sig snd].
  eexists.
  apply (get_credentials_after_create MemoryDriver.driver
           Sample.three_ports Sample.issuer Sample.store _ _ _ _ _
           (UId "u1") Sample.u1 (PId "t1") H eq_refl eq_refl).
Defined.

Lemma create_project_outcomes_witness :
  ∃ st' r' project port,
    create_project Sample.one_port MemoryAdmin.admin Fixture.backend
      empty_datastore 0 "t3" (UObj Sample.u1) None None
    = (st', r', Return (Some project))
    ∧ get_project_vpn_data r' (PObj project)
      = (Some "127.0.0.1", Some port).
Proof.
  destruct (drv_create_project MemoryAdmin.admin Fixture.backend "t3"
              (User_safe_id (UObj Sample.u1)) None
              (fmap (M := list) User_safe_id <$> None))
    as [project_dict st'] eqn:Hdrv.
  destruct project_dict as [project|]; [|vm_compute in Hdrv; discriminate].
  destruct (proj2 (proj2 (proj2 (create_project_outcomes Sample.one_port
              MemoryAdmin.admin Fixture.backend empty_datastore 0 "t3"
              (UObj Sample.u1) None None _ _ Hdrv))) project eq_refl eq_refl)
    as (port & r' & Hcreated & _ & Hdata).
  { intros Hempty.
    apply (not_elem_of_empty (C := gset Z) 1000%Z). rewrite <- Hempty.
    apply (pool_at_pop_first_use Sample.one_port empty_datastore
             "127.0.0.1"); [by vm_compute | by vm_compute | done]. }
  by exists st', r', project, port.
Defined.

Lemma generate_key_pair_once_witness :
  ∃ st1,
    generate_key_pair MemoryAdmin.driver MemoryAdmin.admin Fixture.backend
      (UObj Sample.u1) "laptop" ("private", "public", "fp")
    = (st1, Generated "private" "fp")
    ∧ generate_key_pair MemoryAdmin.driver MemoryAdmin.admin st1
        (UObj Sample.u1) "laptop" ("other", "keys", "fp2")
      = (st1, RaiseDuplicate).
Proof.
  eexists. split; [reflexivity|].
  apply (proj2 (proj2 (generate_key_pair_once MemoryAdmin.driver
                         MemoryAdmin.admin memory_key_pair_laws
                         Fixture.backend (UObj Sample.u1) "laptop"
                         "private" "public" "fp")) _ eq_refl).
Defined.

(** ** The port set on its own *)

Section PortSet.
Variable FLAGS : Flags.

(** X26.  On a seeded pool, a port found by [find_free_port_for_ip] was
    among the free ports and is no longer; adding it back with [sadd], as
    [destroy] does, restores the set of free ports. *)
Theorem find_free_port_then_sadd_restores choice r ip port r' :
  Vpn.materialized r ip = true →
  Vpn.find_free_port_for_ip FLAGS choice r ip = Return (port, r') →
  port ∈ Redis.smembers r ip
  ∧ (port ∉ Redis.smembers r' ip)
  ∧ Redis.smembers (Redis.sadd r' ip port) ip = Redis.smembers r ip.
Proof.
  intros Hmat Hfound.
  destruct (find_free_port_for_ip_spec FLAGS choice r ip)
    as [[_ Hraise] | (port' & r1 & Hin & Hret & Hm & _)]; [congruence|].
  rewrite Hfound in Hret. injection Hret as <- <-.
  rewrite (pool_at_pop_materialized FLAGS r ip Hmat) in Hin, Hm.
  split_and!; [done| |].
  - rewrite Hm. intros [_ Hne]%elem_of_difference.
    by apply Hne, elem_of_singleton.
  - rewrite smembers_sadd, decide_True, Hm by done.
    symmetry. by apply union_difference_singleton_L.
Qed.

(** X27.  On a first use [find_free_port_for_ip] raises [NoMorePorts]
    exactly when [FLAGS.vpn_end_port] is below [FLAGS.vpn_start_port], the
    range then being empty; a port it returns lies within the two flags. *)
Theorem first_use_raises_iff_empty_range choice r ip :
  Vpn.materialized r ip = false →
  (Vpn.find_free_port_for_ip FLAGS choice r ip = Raise NoMorePorts
   ↔ (vpn_end_port FLAGS < vpn_start_port FLAGS)%Z)
  ∧ (∀ port r',
       Vpn.find_free_port_for_ip FLAGS choice r ip = Return (port, r') →
       (vpn_start_port FLAGS ≤ port ≤ vpn_end_port FLAGS)%Z).
Proof.
  intros Hfirst.
  apply orb_false_iff in Hfirst as [Hports Hassoc].
  pose proof (pool_at_pop_first_use FLAGS r ip Hports Hassoc) as Hpool.
  destruct (find_free_port_for_ip_spec FLAGS choice r ip)
    as [[Hempty ->] | (port & r1 & Hin & -> & _)].
  - split; [|discriminate]. split; [intros _|done].
    destruct (decide (vpn_end_port FLAGS < vpn_start_port FLAGS)%Z);
      [done|].
    exfalso. apply (not_elem_of_empty (C := gset Z) (vpn_start_port FLAGS)).
    rewrite <- Hempty. apply Hpool. lia.
  - apply Hpool in Hin. split.
    + split; [discriminate|lia].
    + by intros port' r' [= <- <-].
Qed.

(** When [find_free_port_for_ip] raises, the seeding before it has added
    nothing, so the datastore is then as it was, which is what
    [create_project] keeps in that case. *)
Lemma find_free_port_for_ip_raises_unchanged choice r ip e :
  Vpn.find_free_port_for_ip FLAGS choice r ip = Raise e →
  (if negb (Redis.exists_ports r ip)
      && negb (Redis.exists_association r "ip" ip)
   then foldl (λ r i, Redis.sadd r ip i) r
          (Vpn.range (vpn_start_port FLAGS) (vpn_end_port FLAGS + 1))
   else r) = r.
Proof.
  intros Hraise.
  destruct (negb (Redis.exists_ports r ip)
            && negb (Redis.exists_association r "ip" ip)) eqn:Hseed;
    [|done].
  apply andb_true_iff in Hseed as [Hp%negb_true_iff Ha%negb_true_iff].
  destruct (find_free_port_for_ip_spec FLAGS choice r ip)
    as [[Hempty _] | (port & r1 & _ & Hret & _)]; [|congruence].
  unfold Vpn.pool_at_pop, Vpn.materialized in Hempty.
  rewrite Hp, Ha in Hempty. cbn [orb] in Hempty.
  destruct (Vpn.range (vpn_start_port FLAGS) (vpn_end_port FLAGS + 1))
    as [|i l]; [done|].
  exfalso. apply (not_elem_of_empty (C := gset Z) i).
  rewrite <- Hempty, list_to_set_cons. apply elem_of_union_l.
  by apply elem_of_singleton.
Qed.

End PortSet.

Lemma seeded_find_returns :
  { found | Vpn.find_free_port_for_ip Sample.three_ports 1 Sample.seeded
              "127.0.0.1" = Return found }.
Proof.
  destruct (Vpn.find_free_port_for_ip Sample.three_ports 1 Sample.seeded
              "127.0.0.1") as [found|e] eqn:H; [by exists found|].
  vm_compute in H. discriminate H.
Defined.

Lemma find_free_port_then_sadd_restores_witness :
  Redis.smembers
    (Redis.sadd (proj1_sig seeded_find_returns).2 "127.0.0.1"
       (proj1_sig seeded_find_returns).1) "127.0.0.1"
  = Redis.smembers Sample.seeded "127.0.0.1".
Proof.
  destruct seeded_find_returns as [[port r'] H]. cbn [proj1_sig fst snd].
  apply (find_free_port_then_sadd_restores Sample.three_ports 1
           Sample.seeded "127.0.0.1" port r' ltac:(by vm_compute) H).
Defined.

Lemma first_use_raises_iff_empty_range_witness :
  Vpn.find_free_port_for_ip Sample.one_port 0 empty_datastore "127.0.0.1"
  ≠ Raise NoMorePorts.
Proof.
  intros H.
  apply (proj1 (first_use_raises_iff_empty_range Sample.one_port 0
                  empty_datastore "127.0.0.1" ltac:(by vm_compute))) in H.
  vm_compute in H. discriminate H.
Defined.

(** ** Where the two checks stop short *)

(** With [projectmanager] listed among the superuser roles, [u1], who is a
    member of [t1] and signs correctly, is not let through: [is_admin]
    raises before the membership is looked at, and [authenticate] raises
    [Error].  For [t2], of which [u1] is no member, the same [Error] is
    raised where [NotFound] would be. *)
Lemma authenticate_membership_check_counterexample :
  User.id Sample.u1 ∈ Project.member_ids Sample.t1
  ∧ authenticate MemoryDriver.driver Fixture.projectmanager_superuser
      Sample.signer Sample.store "AK1:t1" "SK1|GET|host|/|Action=Run"
      [("Action", "Run")] "GET" "host" "/" "ec2" None = Raise Error
  ∧ ¬ ((authenticate MemoryDriver.driver Fixture.projectmanager_superuser
          Sample.signer Sample.store "AK1:t1" "SK1|GET|host|/|Action=Run"
          [("Action", "Run")] "GET" "host" "/" "ec2" None
        = Return (Sample.u1, Sample.t1)
        ∨ authenticate MemoryDriver.driver Fixture.projectmanager_superuser
            Sample.signer Sample.store "AK1:t1" "SK1|GET|host|/|Action=Run"
            [("Action", "Run")] "GET" "host" "/" "ec2" None
          = Raise NotAuthorized)
       ↔ (is_admin MemoryDriver.driver Fixture.projectmanager_superuser
            Sample.store (UObj Sample.u1) = Return (VBool true)
          ∨ User.id Sample.u1 ∈ Project.member_ids Sample.t1))
  ∧ (User.id Sample.u1 ∉ Project.member_ids Sample.t2)
  ∧ is_admin MemoryDriver.driver Fixture.projectmanager_superuser
      Sample.store (UObj Sample.u1) ≠ Return (VBool true)
  ∧ authenticate MemoryDriver.driver Fixture.projectmanager_superuser
      Sample.signer Sample.store "AK1:t2" "SK1|GET|host|/|Action=Run"
      [("Action", "Run")] "GET" "host" "/" "ec2" None ≠ Raise NotFound.
Proof.
  assert (authenticate MemoryDriver.driver Fixture.projectmanager_superuser
            Sample.signer Sample.store "AK1:t1" "SK1|GET|host|/|Action=Run"
            [("Action", "Run")] "GET" "host" "/" "ec2" None = Raise Error)
    as Hmember by (by vm_compute).
  assert (User.id Sample.u1 ∈ Project.member_ids Sample.t1) as Hin
    by (by left).
  split_and!; [done|done| | | |].
  - rewrite Hmember. intros [_ Hproceeds].
    destruct Hproceeds as [H|H]; [by right|discriminate H|discriminate H].
  - intros H. apply list_elem_of_In in H. simpl in H.
    destruct H as [H|[]]. discriminate H.
  - vm_compute. discriminate.
  - vm_compute. discriminate.
Qed.

(** With one port configured and nothing saved between the calls,
    [find_free_port_for_ip] called a second time on the ip it has just
    drained does not raise [NoMorePorts]: the set it emptied no longer
    exists, no [Vpn] is associated with the ip, so the range is seeded again
    and port 1000 is returned a second time. *)
Lemma first_use_seeds_configured_range_counterexample :
  vpn_start_port Sample.one_port = 1000%Z
  ∧ vpn_end_port Sample.one_port = 1000%Z
  ∧ Vpn.materialized empty_datastore "127.0.0.1" = false
  ∧ (do first <- Vpn.find_free_port_for_ip Sample.one_port 0 empty_datastore
                   "127.0.0.1";
     do second <- Vpn.find_free_port_for_ip Sample.one_port 0 first.2
                    "127.0.0.1";
     Return (first.1, second.1)) = Return (1000%Z, 1000%Z)
  ∧ (do first <- Vpn.find_free_port_for_ip Sample.one_port 0 empty_datastore
                   "127.0.0.1";
     do second <- Vpn.find_free_port_for_ip Sample.one_port 0 first.2
                    "127.0.0.1";
     Return second.1) ≠ Raise NoMorePorts.
Proof.
  split_and!; [done|done|by vm_compute|by vm_compute|].
  vm_compute. discriminate.
Qed.
